(** * Bank transaction categorizer: vendor matching, duplicate detection
      and confidence scoring

    A shallow embedding of the scoring core of the repository
    ([src/vendor_matcher.py], [src/confidence_calculator.py],
    [src/utils.py], [src/compact_processor.py]) together with the
    properties its specification states about it.

    Conventions of the embedding.
    - Python [float] values are rationals ([Q]): every literal of the source
      (0.9, 0.01, 0.85, ...) is the rational it denotes and arithmetic is
      exact.  Comparisons of [Q] are the boolean ones of the source.
    - Python [str] values are [string]s of 8-bit characters.  Character
      classes, case mapping and whitespace follow Python on the ASCII range;
      a character above 127 is kept as a caseless symbol.
    - [datetime] values are integers: microseconds on a common time line.
    - A [Dict] transaction is a record of optional entries, [None] standing
      for a missing key; [d.get(k, default)] is [get_or].
    - What the source takes from libraries outside the repository
      ([math.log10], [math.exp], [difflib.SequenceMatcher],
      [urllib.parse.urlparse]) is an interface (a class); the theorems hold
      for every implementation of it, and one reference instance of each is
      given so that the definitions can be run. *)

From Stdlib Require Import ZArith QArith Qabs Qround List String Ascii Bool Lia Lqa.
Import ListNotations.

Open Scope string_scope.

(** ** Python strings *)

Module PyStr.

Definition code (c : ascii) : nat := nat_of_ascii c.

Definition between (lo hi : nat) (c : ascii) : bool :=
  (lo <=? code c)%nat && (code c <=? hi)%nat.

Definition is_upper (c : ascii) : bool := between 65 90 c.
Definition is_lower (c : ascii) : bool := between 97 122 c.
Definition is_digit (c : ascii) : bool := between 48 57 c.

(** [str.isspace] on one character: tab, line feed, vertical tab, form
    feed, carriage return, the four separators 28..31 and the space. *)
Definition is_space (c : ascii) : bool :=
  between 9 13 c || between 28 32 c.

(** The class [\w] of the [re] module. *)
Definition is_word (c : ascii) : bool :=
  is_upper c || is_lower c || is_digit c || (code c =? 95)%nat.

Definition lower_char (c : ascii) : ascii :=
  if is_upper c then ascii_of_nat (code c + 32) else c.

(** [s.lower()] *)
Fixpoint lower (s : string) : string :=
  match s with
  | EmptyString => EmptyString
  | String c s' => String (lower_char c) (lower s')
  end.

Fixpoint lstrip (s : string) : string :=
  match s with
  | EmptyString => EmptyString
  | String c s' => if is_space c then lstrip s' else s
  end.

(** Drops the trailing whitespace: a character is kept when it is not a
    space or when something is kept after it. *)
Fixpoint rstrip (s : string) : string :=
  match s with
  | EmptyString => EmptyString
  | String c s' =>
      match rstrip s' with
      | EmptyString => if is_space c then EmptyString else String c EmptyString
      | r => String c r
      end
  end.

(** [s.strip()] *)
Definition strip (s : string) : string := rstrip (lstrip s).

(** Truth value of a string: [bool(s)]. *)
Definition truthy (s : string) : bool :=
  match s with EmptyString => false | _ => true end.

(** [len(s)] *)
Definition len (s : string) : nat := String.length s.

(** [s.startswith(p)] *)
Fixpoint startswith (p s : string) : bool :=
  match p, s with
  | EmptyString, _ => true
  | String a p', String b s' => Ascii.eqb a b && startswith p' s'
  | String _ _, EmptyString => false
  end.

(** [p in s] *)
Fixpoint contains (p s : string) : bool :=
  startswith p s ||
  match s with
  | EmptyString => false
  | String _ s' => contains p s'
  end.

(** [s.split()]: the maximal runs of characters that are not whitespace.
    [cur] is the word being read, reversed. *)
Fixpoint rev_string (acc s : string) : string :=
  match s with
  | EmptyString => acc
  | String c s' => rev_string (String c acc) s'
  end.

Definition flush (cur : string) (ws : list string) : list string :=
  match cur with
  | EmptyString => ws
  | _ => rev_string EmptyString cur :: ws
  end.

Fixpoint split_ws_aux (cur : string) (s : string) : list string :=
  match s with
  | EmptyString => flush cur []
  | String c s' =>
      if is_space c then flush cur (split_ws_aux EmptyString s')
      else split_ws_aux (String c cur) s'
  end.

Definition split (s : string) : list string := split_ws_aux EmptyString s.

(** [s.split(sep)] for a one-character separator: every field is kept,
    the empty ones too. *)
Fixpoint split_on_aux (sep : ascii) (cur : string) (s : string) : list string :=
  match s with
  | EmptyString => [rev_string EmptyString cur]
  | String c s' =>
      if Ascii.eqb c sep then rev_string EmptyString cur :: split_on_aux sep EmptyString s'
      else split_on_aux sep (String c cur) s'
  end.

Definition split_on (sep : ascii) (s : string) : list string :=
  split_on_aux sep EmptyString s.

(** [sep.join(parts)] *)
Fixpoint join (sep : string) (parts : list string) : string :=
  match parts with
  | [] => EmptyString
  | [p] => p
  | p :: rest => p ++ sep ++ join sep rest
  end.

End PyStr.

(** ** The three substitutions of [_normalize_name] *)

Module Re.
Import PyStr.

(** [\b] between two neighbouring positions; [None] is the edge of the
    string. *)
Definition word_opt (c : option ascii) : bool :=
  match c with Some x => is_word x | None => false end.

Definition boundary (before after : option ascii) : bool :=
  xorb (word_opt before) (word_opt after).

Definition head (s : string) : option ascii :=
  match s with EmptyString => None | String c _ => Some c end.

Fixpoint last_char (d : option ascii) (s : string) : option ascii :=
  match s with EmptyString => d | String c s' => last_char (Some c) s' end.

Fixpoint drop (n : nat) (s : string) : string :=
  match n, s with
  | O, _ => s
  | S n', String _ s' => drop n' s'
  | S _, EmptyString => EmptyString
  end.

(** The alternation of the pattern, in the order the source lists it. *)
Definition suffixes : list string :=
  ["inc"; "llc"; "ltd"; "corp"; "corporation"; "company"; "co"; "aps";
   "a/s"; "as"; "bv"; "gmbh"; "sarl"; "srl"; "ab"; "oy"; "plc"].

(** Length of the match of [(?:alt1|alt2|...)\b\.?] at the head of [s]:
    the first alternative that is a prefix and is followed by a word
    boundary, then an optional full stop. *)
Fixpoint alt_match (alts : list string) (s : string) : option nat :=
  match alts with
  | [] => None
  | a :: rest =>
      let after := drop (len a) s in
      if startswith a s && boundary (last_char None a) (head after) then
        Some (len a + match after with
                      | String "."%char _ => 1
                      | _ => 0
                      end)%nat
      else alt_match rest s
  end.

(** The whole pattern [\b(?:...)\b\.?] at the head of [s], [prev] being
    the character before it. *)
Definition suffix_match (prev : option ascii) (s : string) : option nat :=
  if boundary prev (head s) then alt_match suffixes s else None.

(** [re.sub(suffixes_pattern, '', s)]: leftmost matches, not overlapping.
    [skip] counts the characters of the current match still to delete. *)
Fixpoint sub_suffixes_aux (skip : nat) (prev : option ascii) (s : string) : string :=
  match s with
  | EmptyString => EmptyString
  | String c s' =>
      match skip with
      | S k => sub_suffixes_aux k (Some c) s'
      | O =>
          match suffix_match prev s with
          | Some (S k) => sub_suffixes_aux k (Some c) s'
          | _ => String c (sub_suffixes_aux O (Some c) s')
          end
      end
  end.

Definition sub_suffixes (s : string) : string := sub_suffixes_aux O None s.

(** [re.sub(r'[^\w\s]', ' ', s)] *)
Fixpoint sub_special (s : string) : string :=
  match s with
  | EmptyString => EmptyString
  | String c s' =>
      String (if is_word c || is_space c then c else " "%char) (sub_special s')
  end.

(** [re.sub(r'\s+', ' ', s)]; [in_run] says that the run of whitespace
    being read has already produced its space. *)
Fixpoint sub_spaces_aux (in_run : bool) (s : string) : string :=
  match s with
  | EmptyString => EmptyString
  | String c s' =>
      if is_space c then
        if in_run then sub_spaces_aux true s'
        else String " "%char (sub_spaces_aux true s')
      else String c (sub_spaces_aux false s')
  end.

Definition sub_spaces (s : string) : string := sub_spaces_aux false s.

End Re.

(** ** [VendorMatcher._normalize_name] *)

Definition _normalize_name (name : string) : string :=
  if negb (PyStr.truthy name) then ""
  else
    let name := PyStr.strip (PyStr.lower name) in
    let name := Re.sub_suffixes name in
    let name := Re.sub_special name in
    PyStr.strip (Re.sub_spaces name).

(** ** Numbers *)

Open Scope Q_scope.

(** The comparisons of the source on floats, as booleans. *)
Definition Qleb (a b : Q) : bool := Qle_bool a b.
Definition Qltb (a b : Q) : bool := negb (Qle_bool b a).
Definition Qgeb (a b : Q) : bool := Qle_bool b a.
Definition Qgtb (a b : Q) : bool := negb (Qle_bool a b).
Definition Qeqb (a b : Q) : bool := Qeq_bool a b.

(** [min(a, b)] and [max(a, b)] of Python on two arguments: the first one
    unless the second is strictly better. *)
Definition py_min (a b : Q) : Q := if Qltb b a then b else a.
Definition py_max (a b : Q) : Q := if Qgtb b a then b else a.

(** [len(x)] as a float operand. *)
Definition Qnat (n : nat) : Q := inject_Z (Z.of_nat n).

(** [d.get(key, default)] *)
Definition get_or {A : Type} (o : option A) (default : A) : A :=
  match o with Some x => x | None => default end.

(** ** Libraries the source calls *)

(** [math.log10] and [math.exp]. *)
Class MathLib : Type := {
  log10 : Q -> Q;
  exp : Q -> Q;
  exp_pos : forall x, 0 < exp x
}.

(** [difflib.SequenceMatcher(None, a, b).ratio()]: a similarity between 0
    and 1. *)
Class Difflib : Type := {
  ratio : string -> string -> Q;
  ratio_range : forall a b, 0 <= ratio a b /\ ratio a b <= 1
}.

(** [urllib.parse.urlparse(url).netloc]; [None] when parsing raises. *)
Class UrlLib : Type := {
  urlparse_netloc : string -> option string
}.

(** ** Data model *)

(** A [datetime], in microseconds. *)
Definition datetime : Type := Z.

Definition microseconds_per_second : Z := 1000000.
Definition microseconds_per_day : Z := 86400 * microseconds_per_second.

(** [(d1 - d2).days]: a [timedelta] is normalised with its seconds and
    microseconds non-negative, so the days are the floor of the quotient. *)
Definition timedelta_days (d1 d2 : datetime) : Z :=
  ((d1 - d2) / microseconds_per_day)%Z.

(** [(d1 - d2).total_seconds()] *)
Definition total_seconds (d1 d2 : datetime) : Q :=
  inject_Z (d1 - d2) / inject_Z microseconds_per_second.

(** The transaction dictionaries built from the CSV rows
    ([CSVUtils.create_transaction_data]), restricted to the keys the scoring
    code reads. *)
Module Dict.
Record t : Type := mk {
  date : option datetime;
  text : option string;
  message : option string;
  amount : option Q;
  currency : option string;
  sender : option string;
  receiver : option string
}.

Definition empty : t := mk None None None None None None None.
End Dict.

(** A row of the [transactions] table ([models.Transaction]); every column
    but the key is nullable. *)
Module Transaction.
Record t : Type := mk {
  id : Z;
  date : option datetime;
  text : option string;
  amount : option Q
}.
End Transaction.

(** A row of the [vendors] table ([models.Vendor]). *)
Module Vendor.
Record t : Type := mk {
  id : Z;
  name : string;
  nicknames : option string;
  domain : option string
}.
End Vendor.

(** ** [ConfidenceCalculator] *)

Section ConfidenceCalculator.
Context {ML : MathLib} {DL : Difflib} {UL : UrlLib}.

Definition truthy_opt (o : option string) : bool :=
  match o with Some s => PyStr.truthy s | None => false end.

Definition count_true (bs : list bool) : nat :=
  List.length (List.filter (fun b => b) bs).

Definition calculate_transaction_quality_score (transaction : Dict.t) : Q :=
  let score := 0 in
  let max_score := 0 in
  (* Text field quality (0.3 weight) *)
  let text := get_or (Dict.text transaction) "" in
  let score :=
    if PyStr.truthy text then
      let text_score := py_min (Qnat (PyStr.len text) / 50) 1 in
      let text_score :=
        text_score * (0.7 + 0.3 * (Qnat (List.length (PyStr.split text)) / 10)) in
      score + text_score * 0.3
    else score in
  let max_score := max_score + 0.3 in
  (* Amount validity (0.2 weight) *)
  let amount := get_or (Dict.amount transaction) 0 in
  let score :=
    if negb (Qeqb amount 0) then
      let abs_amount := Qabs amount in
      let amount_score :=
        if Qgtb abs_amount 0 then
          let log_amount := log10 (py_max abs_amount 1) in
          let amount_score := py_min (log_amount / 4) 1 in
          py_max amount_score 0.3
        else 0.3 in
      score + amount_score * 0.2
    else score in
  let max_score := max_score + 0.2 in
  (* Field completeness (0.3 weight) *)
  let fields :=
    [ match Dict.date transaction with Some _ => true | None => false end;
      truthy_opt (Dict.sender transaction);
      truthy_opt (Dict.receiver transaction);
      truthy_opt (Dict.message transaction);
      truthy_opt (Dict.currency transaction) ] in
  let filled_fields := count_true fields in
  let completeness := Qnat filled_fields / Qnat (List.length fields) in
  let score := score + completeness * 0.3 in
  let max_score := max_score + 0.3 in
  (* Message quality (0.2 weight) *)
  let message := get_or (Dict.message transaction) "" in
  let score :=
    if PyStr.truthy message && PyStr.truthy (PyStr.strip message) then
      let message_score := py_min (Qnat (PyStr.len message) / 30) 1 in
      score + message_score * 0.2
    else score in
  let max_score := max_score + 0.2 in
  if Qgtb max_score 0 then score / max_score else 0.

(** The text the vendor and category scores read:
    [' '.join([str(text), str(message), str(sender), str(receiver)]).lower()] *)
Definition text_content (transaction : Dict.t) : string :=
  PyStr.lower
    (PyStr.join " "
       [ get_or (Dict.text transaction) "";
         get_or (Dict.message transaction) "";
         get_or (Dict.sender transaction) "";
         get_or (Dict.receiver transaction) "" ]).

(** Truth value of an optional float: [None] and zero are false. *)
Definition truthy_float (o : option Q) : bool :=
  match o with Some c => negb (Qeqb c 0) | None => false end.

Definition calculate_vendor_confidence
    (vendor_name : string) (transaction : Dict.t)
    (identification_confidence : option Q) : Q :=
  if negb (PyStr.truthy vendor_name) then 0
  else
    let text_content := text_content transaction in
    let vendor_lower := PyStr.lower vendor_name in
    let similarity_score := ratio vendor_lower text_content in
    let text_words := PyStr.split text_content in
    let best_partial_match :=
      fold_left
        (fun best word =>
           if (2 <? PyStr.len word)%nat
           then py_max best (ratio vendor_lower word)
           else best)
        text_words 0 in
    let combined_similarity := py_max similarity_score (best_partial_match * 0.8) in
    let similarity_confidence := 1 / (1 + exp (- (8) * (combined_similarity - 0.4))) in
    let final_confidence :=
      if truthy_float identification_confidence
      then 0.6 * similarity_confidence + 0.4 * get_or identification_confidence 0
      else similarity_confidence in
    py_max 0 (py_min final_confidence 1).

Definition calculate_domain_confidence
    (domain company_name : string) (response_time : Q)
    (content_matches total_words status_code : Z) : bool * Q :=
  if negb (PyStr.truthy domain) then (false, 0)
  else
    let url :=
      if negb (PyStr.startswith "http" domain) then "https://" ++ domain else domain in
    match urlparse_netloc url with
    | None => (false, 0)
    | Some netloc =>
        if negb (PyStr.truthy netloc) then (false, 0)
        else if negb (status_code =? 200)%Z then
          (false, py_max 0.05 (0.1 - inject_Z (Z.abs (status_code - 200)) / 1000))
        else
          let time_factor :=
            if Qgtb response_time 0 then
              if Qltb response_time 1 then 1
              else if Qltb response_time 3 then 0.9
              else 0.8
            else 1 in
          let content_score :=
            if (0 <? content_matches)%Z && (0 <? total_words)%Z then
              let match_ratio := inject_Z content_matches / inject_Z total_words in
              0.2 + 0.6 * (1 / (1 + exp (- (5) * (match_ratio - 0.3))))
            else 0.2 in
          let domain_quality := 1 in
          let final_confidence := content_score * time_factor * domain_quality in
          let final_confidence := py_max 0.1 (py_min final_confidence 1) in
          (true, final_confidence)
    end.

End ConfidenceCalculator.

(** The checks of [calculate_domain_confidence] that come before the status
    code: the domain is not empty and [urlparse] finds a network location. *)
Definition passes_url_parsing `{UL : UrlLib} (domain : string) : bool :=
  PyStr.truthy domain &&
  match urlparse_netloc
          (if negb (PyStr.startswith "http" domain) then "https://" ++ domain else domain)
  with
  | Some netloc => PyStr.truthy netloc
  | None => false
  end.

(** ** The vendor table and its queries *)

(** What [find_existing_vendor] does that can be observed from outside: the
    queries it sends to the session and the similarity scores it computes. *)
Inductive event : Type :=
| QueryIlike (pattern : string)
| QueryAll
| Similarity (str1 str2 : string).

Definition Traced (A : Type) : Type := (A * list event)%type.

Definition ret {A : Type} (a : A) : Traced A := (a, []).

Definition bind {A B : Type} (m : Traced A) (k : A -> Traced B) : Traced B :=
  let (a, l1) := m in
  let (b, l2) := k a in
  (b, (l1 ++ l2)%list).

Definition tell (e : event) : Traced unit := (tt, [e]).

Notation "x <- m ;; k" := (bind m (fun x => k))
  (at level 61, m at next level, right associativity).
Notation "m ;;; k" := (bind m (fun _ => k))
  (at level 61, right associativity).

Definition is_similarity (e : event) : bool :=
  match e with Similarity _ _ => true | _ => false end.

(** SQL [LIKE] without an escape character: [%] stands for any run of
    characters, [_] for any one character. *)
Fixpoint like_match (pattern : string) : string -> bool :=
  match pattern with
  | EmptyString => fun s => negb (PyStr.truthy s)
  | String c p' =>
      if Ascii.eqb c "%" then
        fix star (s : string) : bool :=
          like_match p' s ||
          match s with
          | EmptyString => false
          | String _ s' => star s'
          end
      else if Ascii.eqb c "_" then
        fun s => match s with
                 | EmptyString => false
                 | String _ s' => like_match p' s'
                 end
      else
        fun s => match s with
                 | EmptyString => false
                 | String d s' => Ascii.eqb c d && like_match p' s'
                 end
  end.

(** [Vendor.name.ilike(pattern)]: [lower(name) LIKE lower(pattern)]. *)
Definition ilike (pattern name : string) : bool :=
  like_match (PyStr.lower pattern) (PyStr.lower name).

(** ** [VendorMatcher] *)

Section VendorMatcher.
Context {DL : Difflib}.

(** The rows of [vendors], in the order the session returns them. *)
Variable db_session : list Vendor.t.

Definition _calculate_similarity (str1 str2 : string) : Q :=
  if negb (PyStr.truthy str1) || negb (PyStr.truthy str2) then 0
  else
    let l1 := Z.of_nat (PyStr.len str1) in
    let l2 := Z.of_nat (PyStr.len str2) in
    if Qgtb (inject_Z (Z.abs (l1 - l2))) (inject_Z (Z.max l1 l2) * 0.5) then 0
    else if PyStr.contains str1 str2 || PyStr.contains str2 str1 then 0.9
    else ratio str1 str2.

(** A call of [_calculate_similarity] made while scoring candidates. *)
Definition traced_similarity (str1 str2 : string) : Traced Q :=
  tell (Similarity str1 str2) ;;;
  ret (_calculate_similarity str1 str2).

Definition _find_exact_match (original_name normalized_name : string)
  : Traced (option Vendor.t) :=
  tell (QueryIlike original_name) ;;;
  match List.find (fun v => ilike original_name (Vendor.name v)) db_session with
  | Some exact_match => ret (Some exact_match)
  | None =>
      tell QueryAll ;;;
      ret (List.find
             (fun vendor => String.eqb (_normalize_name (Vendor.name vendor)) normalized_name)
             db_session)
  end.

Fixpoint _check_nicknames_loop (normalized_input : string) (nicknames : list string)
    (best_score : Q) : Traced Q :=
  match nicknames with
  | [] => ret best_score
  | nickname :: rest =>
      let nickname := PyStr.strip nickname in
      if PyStr.truthy nickname then
        s <- traced_similarity normalized_input (_normalize_name nickname) ;;
        _check_nicknames_loop normalized_input rest (py_max best_score s)
      else _check_nicknames_loop normalized_input rest best_score
  end.

Definition _check_nicknames (normalized_input nicknames_str : string) : Traced Q :=
  _check_nicknames_loop normalized_input (PyStr.split_on "," nicknames_str) 0.

(** [parts[-2]] of a list with at least two items. *)
Fixpoint second_to_last (parts : list string) : string :=
  match parts with
  | [a; _] => a
  | _ :: rest => second_to_last rest
  | [] => ""
  end.

Definition _check_domain (normalized_input domain : string) : Traced Q :=
  let domain_parts := PyStr.split_on "." (PyStr.lower domain) in
  let domain_name :=
    if (1 <? List.length domain_parts)%nat then second_to_last domain_parts
    else PyStr.lower domain in
  traced_similarity normalized_input domain_name.

(** One turn of the loop of [_find_fuzzy_match]. *)
Definition fuzzy_step (normalized_input : string) (threshold : Q)
    (best : option Vendor.t * Q) (vendor : Vendor.t)
  : Traced (option Vendor.t * Q) :=
  let '(best_match, best_score) := best in
  s <- traced_similarity normalized_input (_normalize_name (Vendor.name vendor)) ;;
  let '(best_match, best_score) :=
    if Qgtb s best_score && Qgeb s threshold then (Some vendor, s)
    else (best_match, best_score) in
  best1 <-
    (if truthy_opt (Vendor.nicknames vendor) && Qltb s 0.95 then
       nickname_score <-
         _check_nicknames normalized_input (get_or (Vendor.nicknames vendor) "") ;;
       ret (if Qgtb nickname_score best_score && Qgeb nickname_score threshold
            then (Some vendor, nickname_score)
            else (best_match, best_score))
     else ret (best_match, best_score)) ;;
  let '(best_match, best_score) := best1 in
  if truthy_opt (Vendor.domain vendor) && Qltb best_score 1 then
    domain_score <- _check_domain normalized_input (get_or (Vendor.domain vendor) "") ;;
    ret (if Qgtb domain_score best_score && Qgeb domain_score threshold
         then (Some vendor, domain_score)
         else (best_match, best_score))
  else ret (best_match, best_score).

Fixpoint fuzzy_loop (normalized_input : string) (threshold : Q)
    (vendors : list Vendor.t) (best : option Vendor.t * Q)
  : Traced (option Vendor.t * Q) :=
  match vendors with
  | [] => ret best
  | vendor :: rest =>
      best' <- fuzzy_step normalized_input threshold best vendor ;;
      fuzzy_loop normalized_input threshold rest best'
  end.

Definition _find_fuzzy_match (normalized_input : string)
  : Traced (option (Vendor.t * Q)) :=
  tell QueryAll ;;;
  let threshold := 0.8 in
  best <- fuzzy_loop normalized_input threshold db_session (None, 0) ;;
  ret (match best with
       | (Some best_match, best_score) => Some (best_match, best_score)
       | (None, _) => None
       end).

Definition find_existing_vendor (vendor_name : string)
  : Traced (option (Vendor.t * Q)) :=
  if negb (PyStr.truthy vendor_name) then ret None
  else
    let normalized_input := _normalize_name vendor_name in
    if negb (PyStr.truthy normalized_input) then ret None
    else
      exact_vendor <- _find_exact_match vendor_name normalized_input ;;
      match exact_vendor with
      | Some v => ret (Some (v, 1))
      | None => _find_fuzzy_match normalized_input
      end.

End VendorMatcher.

(** The name contains one of the two wildcards of [LIKE]. *)
Fixpoint has_wildcard (s : string) : bool :=
  match s with
  | EmptyString => false
  | String c s' => Ascii.eqb c "%" || Ascii.eqb c "_" || has_wildcard s'
  end.

(** ** Exceptions *)

Inductive exn : Type :=
| KeyError (key : string)
| TypeError.

Inductive result (A : Type) : Type :=
| Ok (a : A)
| Raise (e : exn).
Arguments Ok {A} a.
Arguments Raise {A} e.

Definition and_then {A B : Type} (m : result A) (k : A -> result B) : result B :=
  match m with
  | Ok a => k a
  | Raise e => Raise e
  end.

Notation "'try' x <- m 'in' k" := (and_then m (fun x => k))
  (at level 62, x name, m at next level, right associativity).

(** [d[key]]: raises when the key is missing. *)
Definition item {A : Type} (o : option A) (key : string) : result A :=
  match o with
  | Some x => Ok x
  | None => Raise (KeyError key)
  end.

(** ** [DuplicateDetector.find_duplicate_transactions] *)

Section DuplicateDetector.
Context {DL : Difflib}.

(** The body of the inner loop for one pair: [Ok None] when the pair is
    skipped, [Ok (Some s)] when it is appended with similarity score [s]. *)
Definition compare_pair (new_trans : Dict.t) (existing : Transaction.t)
  : result (option Q) :=
  try date_diff <-
    match Transaction.date existing with
    | Some existing_date =>
        try new_date <- item (Dict.date new_trans) "date" in
        Ok (Z.abs (timedelta_days new_date existing_date))
    | None => Ok 999%Z
    end in
  if (date_diff >? 1)%Z then Ok None
  else
    try new_amount <- item (Dict.amount new_trans) "amount" in
    try existing_amount <-
      match Transaction.amount existing with
      | Some a => Ok a
      | None => Raise TypeError
      end in
    if Qgtb (Qabs (new_amount - existing_amount)) 0.01 then Ok None
    else
      try new_text <- item (Dict.text new_trans) "text" in
      let text_similarity :=
        ratio (PyStr.lower new_text)
              (PyStr.lower (get_or (Transaction.text existing) "")) in
      if Qgeb text_similarity 0.85 then
        let similarity_score :=
          (if (date_diff =? 0)%Z then 1 else 0.8) * 0.3
          + 1 * 0.3
          + text_similarity * 0.4 in
        Ok (Some similarity_score)
      else Ok None.

(** The inner loop: stops at the first pair that is appended. *)
Fixpoint scan_existing (new_trans : Dict.t) (existing_transactions : list Transaction.t)
  : result (option (Dict.t * Transaction.t * Q)) :=
  match existing_transactions with
  | [] => Ok None
  | existing :: rest =>
      try outcome <- compare_pair new_trans existing in
      match outcome with
      | Some similarity_score => Ok (Some (new_trans, existing, similarity_score))
      | None => scan_existing new_trans rest
      end
  end.

(** The outer loop, [duplicates] being the list built so far. *)
Fixpoint scan_new (new_transactions : list Dict.t)
    (existing_transactions : list Transaction.t)
    (duplicates : list (Dict.t * Transaction.t * Q))
  : result (list (Dict.t * Transaction.t * Q)) :=
  match new_transactions with
  | [] => Ok duplicates
  | new_trans :: rest =>
      try found <- scan_existing new_trans existing_transactions in
      scan_new rest existing_transactions
        (match found with
         | Some d => duplicates ++ [d]
         | None => duplicates
         end)%list
  end.

(** [db_session.query(Transaction).filter(Transaction.date >= cutoff_date).all()] *)
Definition query_since (db_session : list Transaction.t) (cutoff_date : datetime)
  : list Transaction.t :=
  List.filter
    (fun t => match Transaction.date t with
              | Some d => (cutoff_date <=? d)%Z
              | None => false
              end)
    db_session.

(** [now] is the value of [datetime.now()] at the call. *)
Definition find_duplicate_transactions
    (new_transactions : list Dict.t) (db_session : list Transaction.t)
    (now : datetime) (days_lookback : Z)
  : result (list (Dict.t * Transaction.t * Q)) :=
  let duplicates := [] in
  let cutoff_date := (now - days_lookback * microseconds_per_day)%Z in
  let existing_transactions := query_since db_session cutoff_date in
  scan_new new_transactions existing_transactions duplicates.

End DuplicateDetector.

(** ** What the duplicate scan is expected to report *)

Section ScanSpecification.
Context {DL : Difflib}.

(** The three checks a pair must pass to be reported: dates at most one
    [timedelta] day apart, amounts at most 0.01 apart, descriptions at
    least 85% similar. *)
Definition passes_checks (new_trans : Dict.t) (existing : Transaction.t) : Prop :=
  exists new_date existing_date new_amount existing_amount new_text,
    Dict.date new_trans = Some new_date /\
    Transaction.date existing = Some existing_date /\
    (Z.abs (timedelta_days new_date existing_date) <= 1)%Z /\
    Dict.amount new_trans = Some new_amount /\
    Transaction.amount existing = Some existing_amount /\
    Qabs (new_amount - existing_amount) <= 0.01 /\
    Dict.text new_trans = Some new_text /\
    0.85 <= ratio (PyStr.lower new_text)
                  (PyStr.lower (get_or (Transaction.text existing) "")).

(** [existing] is the first row of [rows] that passes the checks. *)
Definition first_passing (new_trans : Dict.t) (rows : list Transaction.t)
    (existing : Transaction.t) : Prop :=
  exists before after,
    rows = (before ++ existing :: after)%list /\
    (forall x, In x before -> ~ passes_checks new_trans x) /\
    passes_checks new_trans existing.

(** What one new transaction adds to the list: nothing, or one tuple made
    with the first row that passes. *)
Definition contribution (rows : list Transaction.t) (new_trans : Dict.t)
    (c : list (Dict.t * Transaction.t * Q)) : Prop :=
  (List.length c <= 1)%nat /\
  (forall d, In d c ->
     exists existing s,
       d = (new_trans, existing, s) /\
       compare_pair new_trans existing = Ok (Some s) /\
       first_passing new_trans rows existing) /\
  (c = [] -> forall x, In x rows -> ~ passes_checks new_trans x).

(** The keys the scan reads with [new_trans[key]] are present. *)
Definition has_keys (new_trans : Dict.t) : Prop :=
  Dict.date new_trans <> None /\ Dict.amount new_trans <> None /\ Dict.text new_trans <> None.

End ScanSpecification.

(** ** [_transactions_match] of [process_csv_with_duplicate_check] *)

Definition _transactions_match (trans1 trans2 : Dict.t) : bool :=
  match Dict.date trans1, Dict.date trans2 with
  | Some date1, Some date2 =>
      Qltb (Qabs (get_or (Dict.amount trans1) 0 - get_or (Dict.amount trans2) 0)) 0.01
      && String.eqb (get_or (Dict.text trans1) "") (get_or (Dict.text trans2) "")
      && Qltb (Qabs (total_seconds date1 date2)) 86400
  | _, _ => false
  end.

(** ** Reference implementations of the library interfaces *)

Module Reference.

(** *** [difflib]

    [SequenceMatcher.find_longest_match] as its documentation specifies it
    when no element is junk: the longest block common to both sequences,
    the earliest one in [a] among the longest and, among those, the
    earliest one in [b].  [get_matching_blocks] splits both sequences
    around that block and goes on with the parts to its left and to its
    right.  The heuristic that discards popular elements of sequences of
    200 items and more is left out. *)

Fixpoint common_prefix (a b : list ascii) : nat :=
  match a, b with
  | x :: a', y :: b' => if Ascii.eqb x y then S (common_prefix a' b') else O
  | _, _ => O
  end.

(** Best block starting at the head of [a], over the suffixes of [b];
    [j] is the index of the head of [b]. *)
Fixpoint best_in_b (a b : list ascii) (j : nat) : nat * nat :=
  match b with
  | [] => (j, O)
  | _ :: b' =>
      let k := common_prefix a b in
      let (j', k') := best_in_b a b' (S j) in
      if (k' <=? k)%nat then (j, k) else (j', k')
  end.

Fixpoint find_longest_match (a b : list ascii) (i : nat) : nat * nat * nat :=
  match a with
  | [] => (i, O, O)
  | _ :: a' =>
      let (j, k) := best_in_b a b O in
      let '(i', j', k') := find_longest_match a' b (S i) in
      if (k' <=? k)%nat then (i, j, k) else (i', j', k')
  end.

(** Sum of the sizes of the matching blocks. *)
Fixpoint matches (fuel : nat) (a b : list ascii) : nat :=
  match fuel with
  | O => O
  | S fuel' =>
      let '(i, j, k) := find_longest_match a b O in
      if (k =? 0)%nat then O
      else (k + matches fuel' (firstn i a) (firstn j b)
              + matches fuel' (skipn (i + k) a) (skipn (j + k) b))%nat
  end.

Definition sequence_ratio (s1 s2 : string) : Q :=
  let a := list_ascii_of_string s1 in
  let b := list_ascii_of_string s2 in
  let length := (List.length a + List.length b)%nat in
  if (length =? 0)%nat then 1
  else 2 * Qnat (matches (S (List.length a)) a b) / Qnat length.

(** *** [math]

    Rational stand-ins: the exponential by the first terms of its series
    (and its inverse on the negative side), the decimal logarithm by the
    binary one of the integer part. *)

Definition series (y : Q) : Q := 1 + y + y * y / 2 + y * y * y / 6.

Definition exp_ref (x : Q) : Q :=
  if Qleb 0 x then series x else / series (- x).

Definition log10_ref (x : Q) : Q :=
  inject_Z (Z.log2 (Qfloor x)) * (30103 # 100000).

(** *** [urllib.parse]

    The network location of an absolute [http] or [https] URL: what
    follows the two slashes, up to the first slash, question mark or hash
    sign.  Any other string has none. *)

Fixpoint until_delimiter (s : string) : string :=
  match s with
  | EmptyString => EmptyString
  | String c s' =>
      if Ascii.eqb c "/" || Ascii.eqb c "?" || Ascii.eqb c "#" then EmptyString
      else String c (until_delimiter s')
  end.

Definition netloc_ref (url : string) : option string :=
  if PyStr.startswith "https://" url then Some (until_delimiter (Re.drop 8 url))
  else if PyStr.startswith "http://" url then Some (until_delimiter (Re.drop 7 url))
  else Some EmptyString.

End Reference.

(** ** Sample data *)

(** A description of [n] one-letter words. *)
Fixpoint words_of_a (n : nat) : string :=
  match n with
  | O => EmptyString
  | S n' => "a " ++ words_of_a n'
  end.

(** A transaction that has a description of a hundred words and nothing
    else. *)
Definition wordy_transaction : Dict.t :=
  Dict.mk None (Some (words_of_a 100)) None None None None None.

Definition hours (n : Z) : Z := (n * 3600 * microseconds_per_second)%Z.

Definition card_payment (date : datetime) (amount : Q) : Dict.t :=
  Dict.mk (Some date) (Some "STRIPE TECHNOLOGY EU") None (Some amount) (Some "DKK") None None.

Definition day (n : Z) : datetime := (n * microseconds_per_day)%Z.

Definition statement_line (date : datetime) (amount : Q) : Dict.t :=
  Dict.mk (Some date) (Some "STRIPE TECHNOLOGY EU") (Some "Invoice 4471")
          (Some amount) (Some "DKK") None None.

(** Stored the day before the statement line, same description. *)
Definition stored_yesterday : Transaction.t :=
  Transaction.mk 1 (Some (day 9)) (Some "Stripe Technology EU") (Some (-1234.56)).

(** Stored on the day of the statement line, same description. *)
Definition stored_today : Transaction.t :=
  Transaction.mk 2 (Some (day 10)) (Some "STRIPE TECHNOLOGY EU") (Some (-1234.56)).

Definition vendor_llc : Vendor.t := Vendor.mk 1 "LLC" None None.

Definition vendor_stripe : Vendor.t :=
  Vendor.mk 7 "Stripe" (Some "stripe payments, stripe technology") (Some "stripe.com").

Definition vendor_strive : Vendor.t := Vendor.mk 8 "Strive" None None.

(** ** [ConfidenceCalculator]: fallback and domain penalty *)

Section ConfidenceFallback.
Context {ML : MathLib}.

(** [category] is [None] when the argument is left out. *)
Definition calculate_llm_fallback_confidence
    (transaction : Dict.t) (category : option string) : Q :=
  let quality_score := calculate_transaction_quality_score transaction in
  let base_confidence := 0.3 + quality_score * 0.4 in
  let base_confidence :=
    if truthy_opt category then
      let easy_categories := ["transfer"; "salary"; "fees"] in
      let base_confidence :=
        if List.existsb (String.eqb (get_or category "")) easy_categories
        then base_confidence + 0.1
        else base_confidence in
      if String.eqb (get_or category "") "vendor_payment"
      then base_confidence - 0.05
      else base_confidence
    else base_confidence in
  py_max 0.2 (py_min base_confidence 0.8).


End ConfidenceFallback.

(** ** [VendorMatcher]: creating vendors *)

(** The value under ["nicknames"] in the enrichment dictionary: a string or
    a list of strings. *)
Inductive nicknames_value : Type :=
| NickStr (s : string)
| NickList (l : list string).

(** The enrichment dictionary handed to [create_or_get_vendor], restricted
    to the keys that end in the modelled columns of [vendors]; [None] is a
    missing key. *)
Module VendorInfo.
Record t : Type := mk {
  name : option string;
  nicknames : option nicknames_value;
  domain : option string
}.
End VendorInfo.

(** [_format_nicknames(vendor_info.get('nicknames', []))] *)
Definition _format_nicknames (nicknames : option nicknames_value) : string :=
  match nicknames with
  | None => ""
  | Some (NickStr s) => s
  | Some (NickList l) =>
      PyStr.join "," (List.map PyStr.strip (List.filter PyStr.truthy l))
  end.

(** What [create_or_get_vendor] hands back: a row of the table, or the
    [Vendor] object that could not be saved. *)
Inductive vendor_object : Type :=
| Stored (row : Vendor.t)
| Unsaved (name : string) (nicknames : string) (domain : option string).

(** The [UNIQUE] constraint on [vendors.name]: the commit of a new row
    fails when a row has the same name. *)
Definition name_taken (table : list Vendor.t) (name : string) : bool :=
  List.existsb (fun v => String.eqb (Vendor.name v) name) table.

(** The key the table gives to a new row. *)
Definition next_id (table : list Vendor.t) : Z :=
  (1 + List.fold_right Z.max 0 (List.map Vendor.id table))%Z.

Section VendorCreation.
Context {DL : Difflib}.

(** The session is the table: the functions return it as the call leaves
    it.  The commit raises when the name is taken; the handler rolls back
    and looks the name up again. *)
Definition _create_new_vendor (db_session : list Vendor.t)
    (vendor_name : string) (vendor_info : VendorInfo.t)
  : vendor_object * list Vendor.t :=
  let name := get_or (VendorInfo.name vendor_info) vendor_name in
  let nicknames := _format_nicknames (VendorInfo.nicknames vendor_info) in
  let domain := VendorInfo.domain vendor_info in
  if name_taken db_session name then
    match List.find (fun v => ilike name (Vendor.name v)) db_session with
    | Some existing => (Stored existing, db_session)
    | None => (Unsaved name nicknames domain, db_session)
    end
  else
    let vendor := Vendor.mk (next_id db_session) name (Some nicknames) domain in
    (Stored vendor, (db_session ++ [vendor])%list).

Definition create_or_get_vendor (db_session : list Vendor.t)
    (vendor_name : string) (vendor_info : VendorInfo.t)
  : vendor_object * list Vendor.t :=
  match fst (find_existing_vendor db_session vendor_name) with
  | Some existing_match => (Stored (fst existing_match), db_session)
  | None =>
      let enriched_name := get_or (VendorInfo.name vendor_info) vendor_name in
      match
        (if negb (String.eqb enriched_name vendor_name)
         then fst (find_existing_vendor db_session enriched_name)
         else None)
      with
      | Some enriched_match => (Stored (fst enriched_match), db_session)
      | None => _create_new_vendor db_session vendor_name vendor_info
      end
  end.

End VendorCreation.

(** The character [c] does not occur in [s]. *)
Fixpoint lacks (c : ascii) (s : string) : bool :=
  match s with
  | EmptyString => true
  | String d s' => negb (Ascii.eqb d c) && lacks c s'
  end.

(** ** [CompactTransactionProcessor] *)

(** The exceptions of the processor: those of the duplicate scan and of the
    dictionary lookups, a missing attribute, and a failed unpacking. *)
Inductive processor_error : Type :=
| Propagated (e : exn)
| AttributeError (attribute : string)
| ValueError (message : string).

Inductive attempt (A : Type) : Type :=
| Done (a : A)
| Failed (e : processor_error).
Arguments Done {A} a.
Arguments Failed {A} e.

(** The batch cache of vendors: a dictionary from lower-cased names to a
    vendor and a confidence, in insertion order. *)
Definition vendor_cache : Type := list (string * (vendor_object * Q)).

(** [cache[key]] when [key in cache] *)
Fixpoint cache_get (key : string) (cache : vendor_cache) : option (vendor_object * Q) :=
  match cache with
  | [] => None
  | (k, v) :: rest => if String.eqb k key then Some v else cache_get key rest
  end.

(** [cache[key] = value] *)
Fixpoint cache_set (key : string) (value : vendor_object * Q) (cache : vendor_cache)
  : vendor_cache :=
  match cache with
  | [] => [(key, value)]
  | (k, v) :: rest =>
      if String.eqb k key then (k, value) :: rest
      else (k, v) :: cache_set key value rest
  end.

(** What [categorizer.enrich_vendor] answers when it is called: the fields
    of [VendorInfo] that end in the modelled columns, and the confidence. *)
Module Enriched.
Record t : Type := mk {
  name : string;
  nicknames : list string;
  domain : option string;
  confidence : Q
}.
End Enriched.

(** One entry of the answer of [categorize_batch_ultra_fast]. *)
Module FastBatchResult.
Record t : Type := mk {
  category : string;
  confidence : Q;
  vendor_name : option string;
  vendor_confidence : Q
}.
End FastBatchResult.

(** One entry of [duplicate_info]; the date and the similarity are kept as
    values, their rendering as text is left out. *)
Module DuplicateInfo.
Record t : Type := mk {
  index : nat;
  date : datetime;
  amount : Q;
  text : string;
  existing_id : Z;
  existing_date : option datetime;
  existing_text : option string;
  similarity : Q
}.
End DuplicateInfo.

Section CompactProcessor.
Context {DL : Difflib}.

(** [vendor_cache] and [transaction_data] are [None] when the argument is
    left out; [Some] transaction data is a dictionary that is not empty.
    [enrichment] is the answer of [enrich_vendor], should it be called.
    The call returns its value or its exception, the dictionary of the
    caller as the call leaves it, and the table.

    [vendor_cache or {}] keeps the dictionary of the caller only when it is
    not empty: an empty one is replaced by a new dictionary, and what the
    call stores is lost to the caller.  The processor has no attribute
    [confidence_calc], so the recalculation of the confidence raises. *)
Definition process_vendor_for_transaction
    (db_session : list Vendor.t)
    (vendor_name : option string) (category : string)
    (vendor_cache_arg : option vendor_cache) (transaction_data : option Dict.t)
    (enrichment : Enriched.t)
  : attempt (option vendor_object * Q * string) * option vendor_cache * list Vendor.t :=
  if negb (truthy_opt vendor_name) || negb (String.eqb category "vendor_payment") then
    (Done (None, 0, "none"), vendor_cache_arg, db_session)
  else
    let vendor_name := get_or vendor_name "" in
    let shared := match vendor_cache_arg with Some (_ :: _) => true | _ => false end in
    let local_cache := if shared then get_or vendor_cache_arg [] else [] in
    let seen_by_caller (c : vendor_cache) := if shared then Some c else vendor_cache_arg in
    let vendor_key := PyStr.lower vendor_name in
    match cache_get vendor_key local_cache with
    | Some (cached_vendor, cached_confidence) =>
        (Done (Some cached_vendor, cached_confidence, "cache"), vendor_cache_arg, db_session)
    | None =>
        match fst (find_existing_vendor db_session vendor_name) with
        | Some existing =>
            match transaction_data with
            | Some _ =>
                (Failed (AttributeError "confidence_calc"), vendor_cache_arg, db_session)
            | None =>
                let confidence := snd existing in
                let local_cache :=
                  cache_set vendor_key (Stored (fst existing), confidence) local_cache in
                (Done (Some (Stored (fst existing)), confidence, "database"),
                 seen_by_caller local_cache, db_session)
            end
        | None =>
            let vendor_info := enrichment in
            let created :=
              create_or_get_vendor db_session vendor_name
                (VendorInfo.mk (Some (Enriched.name vendor_info))
                   (Some (NickList (Enriched.nicknames vendor_info)))
                   (Enriched.domain vendor_info)) in
            let local_cache :=
              cache_set vendor_key (fst created, Enriched.confidence vendor_info) local_cache in
            (Done (Some (fst created), Enriched.confidence vendor_info, "llm"),
             seen_by_caller local_cache, snd created)
        end
    end.

(** [_process_transactions], with the answer [batch_results] of the oracle.
    [create_transaction_record] builds the [Transaction] object and may
    raise.  The first turn of the loop unpacks the three values returned by
    [process_vendor_for_transaction] into two names, which raises: the rest
    of the loop is never run. *)
Definition _process_transactions {TransactionObject ResultRow : Type}
    (create_transaction_record : Dict.t -> string -> Q -> result TransactionObject)
    (db_session : list Vendor.t)
    (transactions : list Dict.t) (batch_results : list FastBatchResult.t)
    (enrichment : Enriched.t)
  : attempt (list ResultRow) * list Vendor.t :=
  match transactions with
  | [] => (Done [], db_session)
  | _ :: _ =>
      match List.combine transactions batch_results with
      | [] => (Done [], db_session)
      | (transaction_data, batch_result) :: _ =>
          match create_transaction_record transaction_data
                  (FastBatchResult.category batch_result)
                  (FastBatchResult.confidence batch_result) with
          | Raise e => (Failed (Propagated e), db_session)
          | Ok _ =>
              let '(returned, _, db_session) :=
                process_vendor_for_transaction db_session
                  (FastBatchResult.vendor_name batch_result)
                  (FastBatchResult.category batch_result)
                  (Some []) (Some transaction_data) enrichment in
              match returned with
              | Failed e => (Failed e, db_session)
              | Done _ =>
                  (Failed (ValueError "too many values to unpack (expected 2)"), db_session)
              end
          end
      end
  end.

(** The loop of [process_csv_with_duplicate_check] over [all_transactions],
    from index [i] on. *)
Fixpoint check_rows (i : nat) (rows : list Dict.t)
    (duplicates : list (Dict.t * Transaction.t * Q)) (excluded_indices : list nat)
    (transactions_to_process : list Dict.t) (duplicate_info : list DuplicateInfo.t)
  : attempt (list Dict.t * list DuplicateInfo.t) :=
  match rows with
  | [] => Done (transactions_to_process, duplicate_info)
  | trans :: rest =>
      let is_duplicate :=
        List.existsb
          (fun d => _transactions_match (fst (fst d)) trans
                    && negb (List.existsb (Nat.eqb i) excluded_indices))
          duplicates in
      if is_duplicate then
        let '(existing, score) :=
          match List.find (fun d => _transactions_match (fst (fst d)) trans) duplicates with
          | Some (dup_trans, existing, score) => (Some existing, score)
          | None => (None, 0)
          end in
        match Dict.date trans, Dict.amount trans, Dict.text trans, existing with
        | None, _, _, _ => Failed (Propagated (KeyError "date"))
        | Some _, None, _, _ => Failed (Propagated (KeyError "amount"))
        | Some _, Some _, None, _ => Failed (Propagated (KeyError "text"))
        | Some _, Some _, Some _, None => Failed (AttributeError "id")
        | Some date, Some amount, Some text, Some existing =>
            check_rows (S i) rest duplicates excluded_indices
              transactions_to_process
              (duplicate_info ++
               [DuplicateInfo.mk i date amount text
                  (Transaction.id existing) (Transaction.date existing)
                  (Transaction.text existing) (score * 100)])%list
        end
      else
        check_rows (S i) rest duplicates excluded_indices
          (transactions_to_process ++ [trans])%list duplicate_info
  end.

(** [all_transactions] is what [read_csv_file] returns, [excluded_indices]
    is [None] when left out, [now] the clock of the duplicate scan. *)
Definition process_csv_with_duplicate_check {TransactionObject ResultRow : Type}
    (create_transaction_record : Dict.t -> string -> Q -> result TransactionObject)
    (vendors : list Vendor.t) (stored : list Transaction.t) (now : datetime)
    (all_transactions : list Dict.t) (excluded_indices : option (list nat))
    (batch_results : list FastBatchResult.t) (enrichment : Enriched.t)
  : attempt (list ResultRow * list DuplicateInfo.t) * list Vendor.t :=
  match find_duplicate_transactions all_transactions stored now 7 with
  | Raise e => (Failed (Propagated e), vendors)
  | Ok duplicates =>
      let excluded_indices := get_or excluded_indices [] in
      match check_rows 0 all_transactions duplicates excluded_indices [] [] with
      | Failed e => (Failed e, vendors)
      | Done (transactions_to_process, duplicate_info) =>
          match duplicate_info with
          | _ :: _ => (Done ([], duplicate_info), vendors)
          | [] =>
              match _process_transactions (ResultRow := ResultRow) create_transaction_record vendors
                      transactions_to_process batch_results enrichment with
              | (Done results, vendors) => (Done (results, []), vendors)
              | (Failed e, vendors) => (Failed e, vendors)
              end
          end
      end
  end.

End CompactProcessor.

(** A stand-in for the construction of the [Transaction] object. *)
Definition record_built (transaction_data : Dict.t) (category : string) (confidence : Q)
  : result unit := Ok tt.

Definition batch_answer : FastBatchResult.t :=
  FastBatchResult.mk "vendor_payment" 0.9 (Some "Stripe") 0.8.

Definition enrichment_answer : Enriched.t :=
  Enriched.mk "Stripe" ["Stripe Payments"] (Some "stripe.com") 0.9.

(** A statement line dated 47 hours after [stored_yesterday]. *)
Definition late_statement_line : Dict.t :=
  statement_line (day 10 + hours 23)%Z (-1234.56).

(** ** [ConfidenceCalculator.calculate_category_confidence] *)

(** [math.log2] *)
Class Log2Lib : Type := {
  log2 : Q -> Q
}.

(** [char_counts[char] = char_counts.get(char, 0) + 1] *)
Fixpoint count_up (c : ascii) (counts : list (ascii * nat)) : list (ascii * nat) :=
  match counts with
  | [] => [(c, 1%nat)]
  | (d, n) :: rest =>
      if Ascii.eqb d c then (d, S n) :: rest else (d, n) :: count_up c rest
  end.

(** The dictionary [char_counts] after the loop over [text], in insertion
    order. *)
Fixpoint char_counts (counts : list (ascii * nat)) (text : string) : list (ascii * nat) :=
  match text with
  | EmptyString => counts
  | String c text' => char_counts (count_up c counts) text'
  end.

(** [s.replace(old, new)] for single characters. *)
Fixpoint replace_char (old new : ascii) (s : string) : string :=
  match s with
  | EmptyString => EmptyString
  | String c s' => String (if Ascii.eqb c old then new else c) (replace_char old new s')
  end.

Section CategoryConfidence.
Context {ML : MathLib} {L2 : Log2Lib} {DL : Difflib}.

Definition _calculate_text_entropy (text : string) : Q :=
  if negb (PyStr.truthy text) then 0
  else
    let counts := char_counts [] text in
    let text_length := PyStr.len text in
    fold_left
      (fun entropy entry =>
         let probability := Qnat (snd entry) / Qnat text_length in
         if Qgtb probability 0
         then entropy - probability * log2 probability
         else entropy)
      counts 0.

Definition _analyze_category_patterns (text category : string) (transaction : Dict.t) : Q :=
  let pattern_score := 0 in
  let amount := Qabs (get_or (Dict.amount transaction) 0) in
  let pattern_score :=
    if Qgtb amount 0 then
      let log_amount := log10 amount in
      if String.eqb category "vendor_payment" then pattern_score + 0.5
      else if String.eqb category "salary" then
        if Qgtb log_amount 3 then pattern_score + 0.8 else pattern_score + 0.3
      else if String.eqb category "fees" then
        if Qltb log_amount 2 then pattern_score + 0.7 else pattern_score + 0.4
      else pattern_score
    else pattern_score in
  let words := PyStr.split text in
  let pattern_score :=
    if (0 <? List.length words)%nat then
      let financial_indicators :=
        ["payment"; "transfer"; "charge"; "fee"; "purchase"; "deposit"] in
      let matches :=
        List.length
          (List.filter
             (fun word => List.existsb (fun indicator => PyStr.contains indicator word)
                            financial_indicators)
             words) in
      pattern_score + py_min (Qnat matches / Qnat (List.length words)) 0.5
    else pattern_score in
  py_min pattern_score 1.

Definition calculate_category_confidence
    (transaction : Dict.t) (category : string) (llm_confidence : option Q) : Q :=
  let text_content := text_content transaction in
  let text_entropy := _calculate_text_entropy text_content in
  let category_similarity := ratio (replace_char "_" " " category) text_content in
  let category_pattern_score :=
    _analyze_category_patterns text_content category transaction in
  let pattern_confidence :=
    0.3 * category_similarity
    + 0.4 * category_pattern_score
    + 0.3 * py_min (text_entropy / 3) 1 in
  let final_confidence :=
    if truthy_float llm_confidence
    then 0.7 * get_or llm_confidence 0 + 0.3 * pattern_confidence
    else pattern_confidence in
  let quality_score := calculate_transaction_quality_score transaction in
  let adjusted_confidence := final_confidence * (0.7 + 0.3 * quality_score) in
  py_max 0.1 (py_min adjusted_confidence 1).

End CategoryConfidence.

(** ** [CSVUtils.parse_amount] *)

(** A Python float: a finite number, an infinity or not-a-number. *)
Inductive pyfloat : Type :=
| Finite (q : Q)
| PosInf
| NegInf
| NaN.

(** [float(s)]; [None] when it raises [ValueError]. *)
Class FloatParser : Type := {
  float_of_str : string -> option pyfloat
}.

(** [s.replace(c, '')] *)
Fixpoint remove_char (c : ascii) (s : string) : string :=
  match s with
  | EmptyString => EmptyString
  | String d s' => if Ascii.eqb d c then remove_char c s' else String d (remove_char c s')
  end.

(** The argument is a string, so [pd.isna] is false on it. *)
Definition parse_amount `{FP : FloatParser} (amount_str : string) : pyfloat :=
  if negb (PyStr.truthy amount_str) then Finite 0
  else
    let clean_str := PyStr.strip amount_str in
    if negb (PyStr.truthy clean_str)
       || List.existsb (String.eqb (PyStr.lower clean_str)) ["nan"; "null"; "none"]
    then Finite 0
    else
      let parsed :=
        if PyStr.contains "," clean_str then
          match PyStr.split_on "," clean_str with
          | [integer_part; decimal_part] =>
              float_of_str (remove_char "." integer_part ++ "." ++ decimal_part)
          | _ => None
          end
        else float_of_str (remove_char "." clean_str) in
      match parsed with
      | Some value => value
      | None => Finite 0
      end.

(** Number of occurrences of [c] in [s]. *)
Fixpoint count_char (c : ascii) (s : string) : nat :=
  match s with
  | EmptyString => O
  | String d s' => ((if Ascii.eqb d c then 1 else 0) + count_char c s')%nat
  end.

(** A parser of plain decimal numerals, to run the examples: digits with at
    most one point. *)
Fixpoint digits_value (acc : Z) (s : string) : option Z :=
  match s with
  | EmptyString => Some acc
  | String c s' =>
      if PyStr.is_digit c
      then digits_value (10 * acc + Z.of_nat (PyStr.code c - 48)) s'
      else None
  end.

Definition decimal_of_str (s : string) : option pyfloat :=
  match PyStr.split_on "." s with
  | [whole] =>
      match whole, digits_value 0 whole with
      | String _ _, Some n => Some (Finite (inject_Z n))
      | _, _ => None
      end
  | [whole; fraction] =>
      match digits_value 0 whole, digits_value 0 fraction with
      | Some n, Some f =>
          if negb (PyStr.truthy whole) && negb (PyStr.truthy fraction) then None
          else Some (Finite (inject_Z n + inject_Z f / inject_Z (10 ^ Z.of_nat (PyStr.len fraction))))
      | _, _ => None
      end
  | _ => None
  end.

(** ** Vocabulary of the properties *)

(** The string is empty or starts with a character that is not white space. *)
Definition starts_clean (s : string) : Prop :=
  match s with EmptyString => True | String c _ => PyStr.is_space c = false end.

(** The position [i] is flagged: it is not excluded and its transaction
    matches the new transaction of a reported duplicate. *)
Definition flagged (duplicates : list (Dict.t * Transaction.t * Q))
    (excluded_indices : list nat) (i : nat) (trans : Dict.t) : bool :=
  List.existsb
    (fun d => _transactions_match (fst (fst d)) trans
              && negb (List.existsb (Nat.eqb i) excluded_indices))
    duplicates.


(** Every character of [s] satisfies [p]. *)
Fixpoint all_chars (p : ascii -> bool) (s : string) : bool :=
  match s with
  | EmptyString => true
  | String c s' => p c && all_chars p s'
  end.

Definition digit_or_point (c : ascii) : bool :=
  PyStr.is_digit c || Ascii.eqb c ".".

(** The parser of plain decimal numerals as a [float]: it reads unsigned
    numerals only, of the many forms [float] accepts. *)
Definition decimal_parser : FloatParser := {| float_of_str := decimal_of_str |}.

(** [PromptTemplates.CATEGORIES] *)
Definition CATEGORIES : list string :=
  [ "vendor_payment";
    "salary_payment";
    "customer_payment_received";
    "tax_payment";
    "bank_fee";
    "internal_transfer";
    "not_categorized" ].

(** * Properties *)

(** ** Facts on the numbers *)

Lemma Qnat_le n m : (n <= m)%nat -> Qnat n <= Qnat m.
Proof. intros H. unfold Qnat. rewrite <- Zle_Qle. lia. Qed.

Lemma Qnat_nonneg n : 0 <= Qnat n.
Proof. apply (Qnat_le 0). lia. Qed.

Lemma Qnat_add n m : Qnat (n + m) == Qnat n + Qnat m.
Proof. unfold Qnat. rewrite Nat2Z.inj_add, inject_Z_plus. reflexivity. Qed.

Lemma Qnat_pos n : (0 < n)%nat -> 0 < Qnat n.
Proof.
  intros H. unfold Qnat. change 0 with (inject_Z 0). rewrite <- Zlt_Qlt. lia.
Qed.

Lemma Qltb_true a b : Qltb a b = true <-> a < b.
Proof.
  unfold Qltb. rewrite negb_true_iff. split; intros H.
  - apply Qnot_le_lt. intros Hle. apply Qle_bool_iff in Hle. congruence.
  - destruct (Qle_bool b a) eqn:E; [|reflexivity].
    apply Qle_bool_iff in E. lra.
Qed.

Lemma Qltb_false a b : Qltb a b = false <-> b <= a.
Proof.
  unfold Qltb. rewrite negb_false_iff. apply Qle_bool_iff.
Qed.

Lemma Qgtb_true a b : Qgtb a b = true <-> b < a.
Proof. apply (Qltb_true b a). Qed.

Lemma Qgtb_false a b : Qgtb a b = false <-> a <= b.
Proof. apply (Qltb_false b a). Qed.

Lemma Qgeb_true a b : Qgeb a b = true <-> b <= a.
Proof. apply Qle_bool_iff. Qed.

Lemma py_min_spec a b : py_min a b <= a /\ py_min a b <= b /\ (py_min a b = a \/ py_min a b = b).
Proof.
  unfold py_min. destruct (Qltb b a) eqn:E.
  - apply Qltb_true in E. repeat split; try lra. now right.
  - apply Qltb_false in E. repeat split; try lra. now left.
Qed.

Lemma py_max_spec a b : a <= py_max a b /\ b <= py_max a b /\ (py_max a b = a \/ py_max a b = b).
Proof.
  unfold py_max. destruct (Qgtb b a) eqn:E.
  - apply Qgtb_true in E. repeat split; try lra. now right.
  - apply Qgtb_false in E. repeat split; try lra. now left.
Qed.

Lemma py_min_unit x : 0 <= x -> 0 <= py_min x 1 /\ py_min x 1 <= 1.
Proof.
  intros Hx. destruct (py_min_spec x 1) as (H1 & H2 & [E|E]); rewrite E in *; split; lra.
Qed.

Lemma Qnat_div_nonneg n (k : Q) : 0 < k -> 0 <= Qnat n / k.
Proof.
  intros Hk. apply Qle_shift_div_l; [exact Hk|]. pose proof (Qnat_nonneg n). lra.
Qed.

Lemma Qnat_div_le_1 n m : (n <= m)%nat -> (0 < m)%nat -> Qnat n / Qnat m <= 1.
Proof.
  intros Hnm Hm. apply Qle_shift_div_r; [apply Qnat_pos; exact Hm|].
  pose proof (Qnat_le n m Hnm). lra.
Qed.


(** ** Facts on strings *)

Lemma startswith_refl s : PyStr.startswith s s = true.
Proof.
  induction s as [|c s IH]; simpl; [reflexivity|].
  rewrite Ascii.eqb_refl. exact IH.
Qed.

Lemma contains_refl s : PyStr.contains s s = true.
Proof.
  destruct s; simpl; [reflexivity|].
  rewrite Ascii.eqb_refl, startswith_refl. reflexivity.
Qed.

Lemma truthy_nonempty s : PyStr.truthy s = true <-> s <> "".
Proof.
  destruct s; simpl; split; intros H; congruence.
Qed.

(** ** The reference implementations meet the interfaces *)

Module Instances.
Import Reference.

Lemma common_prefix_le a : forall b,
  (common_prefix a b <= List.length a /\ common_prefix a b <= List.length b)%nat.
Proof.
  induction a as [|x a IH]; intros [|y b]; simpl; try lia.
  destruct (Ascii.eqb x y); simpl; [|lia].
  specialize (IH b). lia.
Qed.

Lemma best_in_b_bound a : forall b j0 j k,
  best_in_b a b j0 = (j, k) ->
  (k <= List.length a /\ j0 <= j /\ (j - j0) + k <= List.length b)%nat.
Proof.
  intros b; induction b as [|y b IH]; intros j0 j k H; simpl in H.
  - inversion H; subst. simpl. lia.
  - destruct (best_in_b a b (S j0)) as [j' k'] eqn:E.
    apply IH in E.
    pose proof (common_prefix_le a (y :: b)) as [Ha Hb].
    destruct (k' <=? common_prefix a (y :: b))%nat; inversion H; subst; simpl in *; lia.
Qed.

Lemma find_longest_match_bound b : forall a i0 i j k,
  find_longest_match a b i0 = (i, j, k) ->
  (i0 <= i /\ (i - i0) + k <= List.length a /\ j + k <= List.length b)%nat.
Proof.
  intros a; induction a as [|x a IH]; intros i0 i j k H; simpl in H.
  - inversion H; subst. simpl. lia.
  - destruct (best_in_b (x :: a) b 0) as [j1 k1] eqn:E1.
    destruct (find_longest_match a b (S i0)) as [[i' j'] k'] eqn:E2.
    apply best_in_b_bound in E1. apply IH in E2.
    destruct (k' <=? k1)%nat; inversion H; subst; simpl in *; lia.
Qed.

Lemma matches_bound fuel : forall a b,
  (matches fuel a b <= Nat.min (List.length a) (List.length b))%nat.
Proof.
  induction fuel as [|fuel IH]; intros a b; simpl; [lia|].
  destruct (find_longest_match a b 0) as [[i j] k] eqn:E.
  apply find_longest_match_bound in E.
  destruct (k =? 0)%nat; [lia|].
  pose proof (IH (firstn i a) (firstn j b)) as H1.
  pose proof (IH (skipn (i + k) a) (skipn (j + k) b)) as H2.
  rewrite !length_firstn in H1. rewrite !length_skipn in H2. lia.
Qed.

(** The fuel [sequence_ratio] gives is enough: more of it changes nothing. *)
Lemma matches_fuel fuel1 : forall fuel2 a b,
  (List.length a < fuel1)%nat -> (List.length a < fuel2)%nat ->
  matches fuel1 a b = matches fuel2 a b.
Proof.
  induction fuel1 as [|fuel1 IH]; intros fuel2 a b H1 H2; [lia|].
  destruct fuel2 as [|fuel2]; [lia|]. simpl.
  destruct (find_longest_match a b 0) as [[i j] k] eqn:E.
  apply find_longest_match_bound in E.
  destruct (k =? 0)%nat eqn:Ek; [reflexivity|].
  apply Nat.eqb_neq in Ek.
  rewrite (IH fuel2 (firstn i a) (firstn j b))
    by (rewrite length_firstn; lia).
  rewrite (IH fuel2 (skipn (i + k) a) (skipn (j + k) b))
    by (rewrite length_skipn; lia).
  reflexivity.
Qed.

Lemma sequence_ratio_range s1 s2 :
  0 <= sequence_ratio s1 s2 /\ sequence_ratio s1 s2 <= 1.
Proof.
  unfold sequence_ratio.
  set (a := list_ascii_of_string s1). set (b := list_ascii_of_string s2).
  destruct (List.length a + List.length b =? 0)%nat eqn:E.
  - split; discriminate.
  - apply Nat.eqb_neq in E.
    pose proof (matches_bound (S (List.length a)) a b) as Hm.
    set (m := matches (S (List.length a)) a b) in *.
    assert (Hlen : 0 < Qnat (List.length a + List.length b))
      by (apply Qnat_pos; lia).
    pose proof (Qnat_nonneg m) as Hm0.
    pose proof (Qnat_le m (List.length a) ltac:(lia)) as Hma.
    pose proof (Qnat_le m (List.length b) ltac:(lia)) as Hmb.
    split.
    + apply Qle_shift_div_l; [exact Hlen | lra].
    + apply Qle_shift_div_r; [exact Hlen |].
      rewrite Qnat_add. lra.
Qed.

#[export] Instance difflib : Difflib :=
  {| ratio := sequence_ratio; ratio_range := sequence_ratio_range |}.

Lemma series_pos y : 0 <= y -> 0 < series y.
Proof.
  intros Hy. unfold series.
  assert (H2 : 0 <= y * y) by (apply Qmult_le_0_compat; assumption).
  assert (H3 : 0 <= y * y * y) by (apply Qmult_le_0_compat; assumption).
  set (p := y * y) in *. set (q := p * y) in *.
  unfold Qdiv.
  setoid_replace (/ 2) with (1 # 2) by reflexivity.
  setoid_replace (/ 6) with (1 # 6) by reflexivity.
  lra.
Qed.

Lemma exp_ref_pos x : 0 < exp_ref x.
Proof.
  unfold exp_ref, Qleb.
  destruct (Qle_bool 0 x) eqn:E.
  - apply series_pos. apply Qle_bool_iff. exact E.
  - apply Qinv_lt_0_compat. apply series_pos.
    assert (~ 0 <= x) by (intro H; apply Qle_bool_iff in H; congruence).
    lra.
Qed.

#[export] Instance math : MathLib :=
  {| log10 := log10_ref; exp := exp_ref; exp_pos := exp_ref_pos |}.

#[export] Instance urllib : UrlLib := {| urlparse_netloc := netloc_ref |}.

End Instances.

(** ** Evaluations *)

Example normalize_examples :
  _normalize_name "Acme Corp." = "acme" /\
  _normalize_name "  Nordic  Widgets A/S " = "nordic widgets" /\
  _normalize_name "Corporation Street Cafe" = "street cafe" /\
  _normalize_name "Costco" = "costco" /\
  _normalize_name "LLC" = "".
Proof. vm_compute. repeat split. Qed.

Example sequence_ratio_examples :
  Reference.sequence_ratio "abcd" "bcde" == 0.75 /\
  Reference.sequence_ratio "netflix" "netflix" == 1 /\
  Reference.sequence_ratio "abc" "xyz" == 0.
Proof. vm_compute. repeat split. Qed.

(** ** Vendor name similarity *)

(** C1, as the code has it: [_calculate_similarity(s, s)] is the substring
    score 0.9 for every non-empty [s], and therefore never 1.0; the
    comparison with itself is answered by the substring test before the
    sequence ratio is reached. *)
Theorem calculate_similarity_self `{DL : Difflib} (s : string) :
  s <> "" ->
  _calculate_similarity s s = 0.9 /\ ~ _calculate_similarity s s == 1.
Proof.
  intros Hs. apply truthy_nonempty in Hs.
  assert (E : _calculate_similarity s s = 0.9).
  { unfold _calculate_similarity. rewrite Hs. simpl.
    rewrite Z.sub_diag, Z.max_id. simpl Z.abs.
    assert (Hlen : Qgtb (inject_Z 0) (inject_Z (Z.of_nat (PyStr.len s)) * 0.5) = false).
    { apply Qgtb_false.
      assert (0 <= inject_Z (Z.of_nat (PyStr.len s))).
      { change 0 with (inject_Z 0). rewrite <- Zle_Qle. lia. }
      change (inject_Z 0) with 0. lra. }
    rewrite Hlen, contains_refl. reflexivity. }
  split; [exact E|]. rewrite E. discriminate.
Qed.

Lemma calculate_similarity_self_witness :
  "acme" <> "" /\
  _calculate_similarity (DL := Instances.difflib) "acme" "acme" = 0.9 /\
  ~ _calculate_similarity (DL := Instances.difflib) "acme" "acme" == 1.
Proof.
  split; [discriminate|].
  apply (calculate_similarity_self (DL := Instances.difflib) "acme"). discriminate.
Defined.

(** A pair that differs in one character scores above the identical pair. *)
Example near_match_beats_identity :
  _calculate_similarity (DL := Instances.difflib)
    "nordic widgets group" "nordic widgets grouq" == 0.95 /\
  _calculate_similarity (DL := Instances.difflib)
    "nordic widgets group" "nordic widgets group" == 0.9.
Proof. vm_compute. split; reflexivity. Qed.

(** C7: the names "Acme Corp." and "acme corp" have the same normal form. *)
Theorem normalize_acme_corp :
  _normalize_name "Acme Corp." = _normalize_name "acme corp".
Proof. vm_compute. reflexivity. Qed.

(** ** Transaction quality *)

Lemma count_true_le bs : (count_true bs <= List.length bs)%nat.
Proof. unfold count_true. apply filter_length_le. Qed.

(** The amount term is between its floor 0.3 and 1. *)
Lemma amount_score_range `{ML : MathLib} (amount : Q) :
  let amount_score :=
    if Qgtb (Qabs amount) 0
    then py_max (py_min (log10 (py_max (Qabs amount) 1) / 4) 1) 0.3
    else 0.3 in
  0.3 <= amount_score /\ amount_score <= 1.
Proof.
  cbv zeta. destruct (Qgtb (Qabs amount) 0); [|split; lra].
  set (x := log10 (py_max (Qabs amount) 1) / 4).
  destruct (py_min_spec x 1) as (_ & H1 & _).
  destruct (py_max_spec (py_min x 1) 0.3) as (_ & H2 & [E|E]); rewrite E in *; split; lra.
Qed.

(** The score is never negative, and it is at most 1 when the description
    has at most ten words. *)
Lemma quality_score_bounds `{ML : MathLib} (transaction : Dict.t) :
  0 <= calculate_transaction_quality_score transaction /\
  ((List.length (PyStr.split (get_or (Dict.text transaction) "")) <= 10)%nat ->
   calculate_transaction_quality_score transaction <= 1).
Proof.
  unfold calculate_transaction_quality_score. cbv zeta.
  assert (Hmax : Qgtb (0 + 0.3 + 0.2 + 0.3 + 0.2) 0 = true) by reflexivity.
  rewrite Hmax.
  set (text := get_or (Dict.text transaction) "").
  set (message := get_or (Dict.message transaction) "").
  set (amount := get_or (Dict.amount transaction) 0).
  pose proof (py_min_unit _ (Qnat_div_nonneg (PyStr.len text) 50 ltac:(reflexivity))) as [Ht0 Ht1].
  pose proof (Qnat_div_nonneg (List.length (PyStr.split text)) 10 ltac:(reflexivity)) as Hw0.
  pose proof (py_min_unit _ (Qnat_div_nonneg (PyStr.len message) 30 ltac:(reflexivity))) as [Hm0 Hm1].
  pose proof (amount_score_range amount) as [Ha0 Ha1]. cbv zeta in Ha0, Ha1.
  match goal with
  | |- context [Qnat (count_true ?bs) / Qnat (List.length ?bs)] =>
      pose proof (Qnat_div_nonneg (count_true bs) (Qnat (List.length bs))
                    ltac:(apply Qnat_pos; simpl; lia)) as Hc0;
      pose proof (Qnat_div_le_1 (count_true bs) (List.length bs)
                    (count_true_le bs) ltac:(simpl; lia)) as Hc1;
      set (C := Qnat (count_true bs) / Qnat (List.length bs)) in *
  end.
  set (T := py_min (Qnat (PyStr.len text) / 50) 1) in *.
  set (W := Qnat (List.length (PyStr.split text)) / 10) in *.
  set (M := py_min (Qnat (PyStr.len message) / 30) 1) in *.
  set (A := if Qgtb (Qabs amount) 0
            then py_max (py_min (log10 (py_max (Qabs amount) 1) / 4) 1) 0.3
            else 0.3) in *.
  assert (Hp0 : 0 <= T * (0.7 + 0.3 * W)) by (apply Qmult_le_0_compat; lra).
  assert (Hp1 : W <= 1 -> T * (0.7 + 0.3 * W) <= 1).
  { intros Hw1.
    apply Qle_trans with (1 * 1); [|lra].
    apply Qmult_le_compat_nonneg; split; lra. }
  assert (Hw1 : (List.length (PyStr.split text) <= 10)%nat -> W <= 1).
  { intros Hwords. apply Qle_shift_div_r; [reflexivity|].
    pose proof (Qnat_le _ _ Hwords) as H. change (Qnat 10) with 10 in H. lra. }
  set (P := T * (0.7 + 0.3 * W)) in *.
  clearbody P C T W M A.
  split.
  - apply Qle_shift_div_l; [reflexivity|].
    destruct (PyStr.truthy message && PyStr.truthy (PyStr.strip message));
      destruct (negb (Qeqb amount 0)); destruct (PyStr.truthy text); lra.
  - intros Hwords.
    specialize (Hp1 (Hw1 Hwords)).
    apply Qle_shift_div_r; [reflexivity|].
    destruct (PyStr.truthy message && PyStr.truthy (PyStr.strip message));
      destruct (negb (Qeqb amount 0)); destruct (PyStr.truthy text); lra.
Qed.

(** C2, at a transaction on which the code leaves the interval: the
    word-count factor of the description is not capped, and a description of
    a hundred words alone scores 1.11. *)
Theorem quality_score_exceeds_one `{ML : MathLib} :
  calculate_transaction_quality_score wordy_transaction == 1.11 /\
  1 < calculate_transaction_quality_score wordy_transaction.
Proof. vm_compute. split; reflexivity. Qed.

(** The transaction with no populated field scores 0. *)
Lemma quality_score_empty `{ML : MathLib} :
  calculate_transaction_quality_score Dict.empty == 0.
Proof. vm_compute. reflexivity. Qed.

(** So does every transaction whose description and message are empty,
    whose amount is zero and whose other fields are missing or empty. *)
Lemma quality_score_unpopulated `{ML : MathLib} (transaction : Dict.t) :
  PyStr.truthy (get_or (Dict.text transaction) "") = false ->
  get_or (Dict.amount transaction) 0 == 0 ->
  Dict.date transaction = None ->
  truthy_opt (Dict.sender transaction) = false ->
  truthy_opt (Dict.receiver transaction) = false ->
  truthy_opt (Dict.message transaction) = false ->
  truthy_opt (Dict.currency transaction) = false ->
  calculate_transaction_quality_score transaction == 0.
Proof.
  intros Ht Ha Hd Hs Hr Hm Hc.
  unfold calculate_transaction_quality_score. cbv zeta.
  rewrite Ht, Hd, Hs, Hr, Hm, Hc.
  apply Qeq_bool_iff in Ha. unfold Qeqb. rewrite Ha.
  assert (Hmsg : PyStr.truthy (get_or (Dict.message transaction) "") = false).
  { destruct (Dict.message transaction); [exact Hm | reflexivity]. }
  rewrite Hmsg. reflexivity.
Qed.

(** ** Domain verification *)

(** C6: for a domain that passes the URL parsing, status code 404 gives
    [(False, x)] with [x <= 0.1]; [x] is the floor 0.05. *)
Theorem domain_confidence_404 `{ML : MathLib} `{UL : UrlLib}
    (domain company_name : string) (response_time : Q) (content_matches total_words : Z) :
  passes_url_parsing domain = true ->
  exists x,
    calculate_domain_confidence domain company_name response_time
      content_matches total_words 404 = (false, x)
    /\ x <= 0.1 /\ x == 0.05.
Proof.
  unfold passes_url_parsing, calculate_domain_confidence.
  intros H. apply andb_true_iff in H as [Hd Hn].
  rewrite Hd. simpl negb at 1. cbv iota.
  destruct (urlparse_netloc _) as [netloc|]; [|discriminate].
  rewrite Hn. simpl.
  eexists. split; [reflexivity|]. vm_compute. split; [discriminate | reflexivity].
Qed.

Lemma domain_confidence_404_witness :
  passes_url_parsing (UL := Instances.urllib) "stripe.com" = true /\
  exists x,
    calculate_domain_confidence (ML := Instances.math) (UL := Instances.urllib)
      "stripe.com" "Stripe" 0 0 1 404 = (false, x)
    /\ x <= 0.1 /\ x == 0.05.
Proof.
  split; [reflexivity|].
  apply (domain_confidence_404 (ML := Instances.math) (UL := Instances.urllib)).
  reflexivity.
Defined.

(** ** Vendor confidence *)

(** C9: an identification confidence of exactly zero is the same as none:
    the value is the similarity confidence alone, without the 60/40 blend. *)
Theorem vendor_confidence_zero_ignored `{ML : MathLib} `{DL : Difflib}
    (vendor_name : string) (transaction : Dict.t) :
  calculate_vendor_confidence vendor_name transaction (Some 0)
  = calculate_vendor_confidence vendor_name transaction None.
Proof.
  unfold calculate_vendor_confidence. reflexivity.
Qed.

(** A non-zero confidence is blended. *)
Example vendor_confidence_blend :
  ~ calculate_vendor_confidence (ML := Instances.math) (DL := Instances.difflib)
      "stripe" (Dict.mk None (Some "STRIPE TECHNOLOGY EU") None None None None None) (Some 0.5)
    == calculate_vendor_confidence (ML := Instances.math) (DL := Instances.difflib)
      "stripe" (Dict.mk None (Some "STRIPE TECHNOLOGY EU") None None None None None) None.
Proof. vm_compute. discriminate. Qed.

(** ** CSV re-submission *)

(** C4: two transactions with dates, amounts less than 0.01 apart and equal
    descriptions match when their dates are 12 hours apart and do not match
    when their dates are 36 hours apart. *)
Theorem transactions_match_window (trans1 trans2 : Dict.t) (date1 date2 : datetime) :
  Dict.date trans1 = Some date1 ->
  Dict.date trans2 = Some date2 ->
  Qabs (get_or (Dict.amount trans1) 0 - get_or (Dict.amount trans2) 0) < 0.01 ->
  get_or (Dict.text trans1) "" = get_or (Dict.text trans2) "" ->
  (Z.abs (date1 - date2) = hours 12 -> _transactions_match trans1 trans2 = true) /\
  (Z.abs (date1 - date2) = hours 36 -> _transactions_match trans1 trans2 = false).
Proof.
  intros H1 H2 Ha Ht. unfold _transactions_match. rewrite H1, H2, Ht.
  apply Qltb_true in Ha. rewrite Ha, String.eqb_refl. simpl andb.
  unfold total_seconds.
  split; intros Hd.
  - assert (E : (date1 - date2 = hours 12 \/ date1 - date2 = - hours 12)%Z) by lia.
    destruct E as [E|E]; rewrite E; vm_compute; reflexivity.
  - assert (E : (date1 - date2 = hours 36 \/ date1 - date2 = - hours 36)%Z) by lia.
    destruct E as [E|E]; rewrite E; vm_compute; reflexivity.
Qed.

Lemma transactions_match_window_witness :
  _transactions_match (card_payment (hours 12) (-1234.56)) (card_payment 0%Z (-1234.555)) = true /\
  _transactions_match (card_payment 0%Z (-1234.56)) (card_payment (hours 36) (-1234.555)) = false.
Proof.
  split.
  - apply (transactions_match_window
             (card_payment (hours 12) (-1234.56)) (card_payment 0%Z (-1234.555))
             (hours 12) 0%Z);
      [reflexivity | reflexivity | vm_compute; reflexivity | reflexivity | reflexivity].
  - apply (transactions_match_window
             (card_payment 0%Z (-1234.56)) (card_payment (hours 36) (-1234.555))
             0%Z (hours 36));
      [reflexivity | reflexivity | vm_compute; reflexivity | reflexivity | reflexivity].
Defined.

(** ** Duplicate scan *)

Section DuplicateScan.
Context {DL : Difflib}.

Lemma compare_pair_accepts new_trans existing s :
  compare_pair new_trans existing = Ok (Some s) ->
  passes_checks new_trans existing /\ 0.88 <= s /\ s <= 1.
Proof.
  unfold compare_pair, passes_checks. intros H.
  destruct (Transaction.date existing) as [ed|] eqn:Hed; cbn [and_then item] in H; [|discriminate].
  destruct (Dict.date new_trans) as [nd|] eqn:Hnd; cbn [and_then item] in H; [|discriminate].
  destruct (Z.abs (timedelta_days nd ed) >? 1)%Z eqn:Hdays; [discriminate|].
  destruct (Dict.amount new_trans) as [a|] eqn:Ha; cbn [and_then item] in H; [|discriminate].
  destruct (Transaction.amount existing) as [b|] eqn:Hb; cbn [and_then item] in H; [|discriminate].
  destruct (Qgtb (Qabs (a - b)) 0.01) eqn:Hamt; [discriminate|].
  destruct (Dict.text new_trans) as [t|] eqn:Ht; cbn [and_then item] in H; [|discriminate].
  destruct (Qgeb _ 0.85) eqn:Hsim; [|discriminate].
  apply Qgtb_false in Hamt. apply Qgeb_true in Hsim.
  injection H as <-.
  split.
  - exists nd, ed, a, b, t. repeat split; try assumption; try reflexivity. lia.
  - pose proof (ratio_range (PyStr.lower t)
                  (PyStr.lower (get_or (Transaction.text existing) ""))) as [_ Hle].
    destruct (Z.abs (timedelta_days nd ed) =? 0)%Z; lra.
Qed.

(** The score of an accepted pair: the date factor is 1 or 0.8 and the text
    similarity at least 0.85. *)
Lemma compare_pair_score new_trans existing s :
  compare_pair new_trans existing = Ok (Some s) ->
  exists date_factor text_similarity,
    s = date_factor * 0.3 + 1 * 0.3 + text_similarity * 0.4 /\
    (date_factor = 1 \/ date_factor = 0.8) /\
    0.85 <= text_similarity /\ text_similarity <= 1.
Proof.
  unfold compare_pair. intros H.
  destruct (Transaction.date existing) as [ed|] eqn:Hed; cbn [and_then item] in H; [|discriminate].
  destruct (Dict.date new_trans) as [nd|] eqn:Hnd; cbn [and_then item] in H; [|discriminate].
  destruct (Z.abs (timedelta_days nd ed) >? 1)%Z eqn:Hdays; [discriminate|].
  destruct (Dict.amount new_trans) as [a|] eqn:Ha; cbn [and_then item] in H; [|discriminate].
  destruct (Transaction.amount existing) as [b|] eqn:Hb; cbn [and_then item] in H; [|discriminate].
  destruct (Qgtb (Qabs (a - b)) 0.01) eqn:Hamt; [discriminate|].
  destruct (Dict.text new_trans) as [t|] eqn:Ht; cbn [and_then item] in H; [|discriminate].
  destruct (Qgeb _ 0.85) eqn:Hsim; [|discriminate].
  apply Qgeb_true in Hsim. injection H as <-.
  eexists. eexists. split; [reflexivity|].
  split; [destruct (Z.abs (timedelta_days nd ed) =? 0)%Z; auto|].
  split; [exact Hsim | apply ratio_range].
Qed.

Lemma compare_pair_skips new_trans existing :
  compare_pair new_trans existing = Ok None ->
  ~ passes_checks new_trans existing.
Proof.
  unfold compare_pair, passes_checks.
  intros H (nd & ed & a & b & t & Hnd & Hed & Hdays & Ha & Hb & Hamt & Ht & Hsim).
  rewrite Hed, Hnd in H. cbn [and_then item] in H.
  destruct (Z.abs (timedelta_days nd ed) >? 1)%Z eqn:E; [lia|].
  rewrite Ha, Hb in H. cbn [and_then item] in H.
  destruct (Qgtb (Qabs (a - b)) 0.01) eqn:E1.
  - apply Qgtb_true in E1. lra.
  - rewrite Ht in H. cbn [and_then item] in H.
    destruct (Qgeb _ 0.85) eqn:E2; [discriminate|].
    assert (Qgeb (ratio (PyStr.lower t)
                    (PyStr.lower (get_or (Transaction.text existing) ""))) 0.85 = true)
      by (apply Qgeb_true; exact Hsim).
    congruence.
Qed.

Lemma scan_existing_found new_trans : forall rows d,
  scan_existing new_trans rows = Ok (Some d) ->
  exists existing s,
    d = (new_trans, existing, s) /\
    compare_pair new_trans existing = Ok (Some s) /\
    first_passing new_trans rows existing.
Proof.
  induction rows as [|x rows IH]; intros d H; simpl in H; [discriminate|].
  destruct (compare_pair new_trans x) as [[s|]|] eqn:E; simpl in H; try discriminate.
  - injection H as <-. exists x, s. repeat split; [exact E|].
    exists [], rows. repeat split.
    + intros y [].
    + apply (compare_pair_accepts _ _ _ E).
  - destruct (IH d H) as (e & s & -> & Hc & before & after & -> & Hb & Hp).
    exists e, s. repeat split; [exact Hc|].
    exists (x :: before), after. repeat split; [| exact Hp].
    intros y [<-|Hy]; [apply compare_pair_skips; exact E | apply Hb; exact Hy].
Qed.

Lemma scan_existing_not_found new_trans : forall rows,
  scan_existing new_trans rows = Ok None ->
  forall x, In x rows -> ~ passes_checks new_trans x.
Proof.
  induction rows as [|y rows IH]; intros H x Hx; simpl in *; [contradiction|].
  destruct (compare_pair new_trans y) as [[s|]|] eqn:E; simpl in H; try discriminate.
  destruct Hx as [<-|Hx]; [apply compare_pair_skips; exact E | apply IH; assumption].
Qed.

Lemma scan_new_contributions rows : forall news acc dups,
  scan_new news rows acc = Ok dups ->
  exists contribs,
    dups = (acc ++ List.concat contribs)%list /\
    Forall2 (contribution rows) news contribs.
Proof.
  induction news as [|n news IH]; intros acc dups H; simpl in H.
  - injection H as <-. exists []. simpl. rewrite app_nil_r. split; [reflexivity | constructor].
  - destruct (scan_existing n rows) as [found|] eqn:E; simpl in H; [|discriminate].
    apply IH in H as (contribs & -> & HF).
    destruct found as [d|].
    + exists ([d] :: contribs). split; [simpl; rewrite <- app_assoc; reflexivity|].
      constructor; [|exact HF].
      split; [simpl; lia|]. split.
      * intros d' [<-|[]]. apply scan_existing_found. exact E.
      * discriminate.
    + exists ([] :: contribs). split; [reflexivity|].
      constructor; [|exact HF].
      split; [simpl; lia|]. split.
      * intros d' [].
      * intros _. apply scan_existing_not_found. exact E.
Qed.

(** Every reported tuple is a pair that went through [compare_pair]. *)
Lemma reported_pairs new_transactions db_session now days_lookback dups d :
  find_duplicate_transactions new_transactions db_session now days_lookback = Ok dups ->
  In d dups ->
  exists new_trans existing s,
    d = (new_trans, existing, s) /\
    In new_trans new_transactions /\
    compare_pair new_trans existing = Ok (Some s).
Proof.
  unfold find_duplicate_transactions. intros H Hd.
  apply scan_new_contributions in H as (contribs & -> & HF).
  simpl in Hd. apply in_concat in Hd as (c & Hc & Hdc).
  revert Hc Hdc. induction HF as [|n c' news contribs Hn HF IH]; intros Hc Hdc.
  - contradiction.
  - destruct Hc as [<-|Hc].
    + destruct Hn as (_ & Hin & _).
      destruct (Hin d Hdc) as (e & s & -> & Hcp & _).
      exists n, e, s. repeat split; [left; reflexivity | exact Hcp].
    + destruct (IH Hc Hdc) as (n' & e & s & -> & Hn' & Hcp).
      exists n', e, s. repeat split; [right; exact Hn' | exact Hcp].
Qed.

Lemma compare_pair_returns new_trans existing :
  has_keys new_trans -> Transaction.amount existing <> None ->
  exists outcome, compare_pair new_trans existing = Ok outcome.
Proof.
  intros (Hd & Ha & Ht) Hb. unfold compare_pair.
  destruct (Dict.date new_trans) as [nd|]; [|contradiction].
  destruct (Dict.amount new_trans) as [a|]; [|contradiction].
  destruct (Dict.text new_trans) as [t|]; [|contradiction].
  destruct (Transaction.amount existing) as [b|]; [|contradiction].
  destruct (Transaction.date existing) as [ed|]; cbn [and_then item].
  - destruct (Z.abs (timedelta_days nd ed) >? 1)%Z; [eexists; reflexivity|].
    destruct (Qgtb (Qabs (a - b)) 0.01); [eexists; reflexivity|].
    destruct (Qgeb _ 0.85); eexists; reflexivity.
  - eexists; reflexivity.
Qed.

Lemma scan_existing_returns new_trans : forall rows,
  has_keys new_trans ->
  (forall e, In e rows -> Transaction.amount e <> None) ->
  exists found, scan_existing new_trans rows = Ok found.
Proof.
  induction rows as [|x rows IH]; intros Hn Hrows; simpl.
  - eexists; reflexivity.
  - destruct (compare_pair_returns new_trans x Hn (Hrows x (or_introl eq_refl))) as [o ->].
    cbn [and_then]. destruct o; [eexists; reflexivity|].
    apply IH; [exact Hn|]. intros e He. apply Hrows. right; exact He.
Qed.

Lemma scan_new_returns rows : forall news acc,
  (forall n, In n news -> has_keys n) ->
  (forall e, In e rows -> Transaction.amount e <> None) ->
  exists dups, scan_new news rows acc = Ok dups.
Proof.
  induction news as [|n news IH]; intros acc Hnews Hrows; simpl.
  - eexists; reflexivity.
  - destruct (scan_existing_returns n rows (Hnews n (or_introl eq_refl)) Hrows) as [found ->].
    cbn [and_then]. apply IH; [|exact Hrows].
    intros m Hm. apply Hnews. right; exact Hm.
Qed.

(** The scan returns a list whenever the new transactions carry their date,
    amount and description and no stored amount is NULL. *)
Lemma find_duplicate_transactions_returns new_transactions db_session now days_lookback :
  (forall n, In n new_transactions -> has_keys n) ->
  (forall e, In e db_session -> Transaction.amount e <> None) ->
  exists dups,
    find_duplicate_transactions new_transactions db_session now days_lookback = Ok dups.
Proof.
  intros Hnews Hrows. unfold find_duplicate_transactions.
  apply scan_new_returns; [exact Hnews|].
  intros e He. apply Hrows. unfold query_since in He.
  apply filter_In in He. tauto.
Qed.

End DuplicateScan.

(** C5: a pair whose amounts differ by 0.02 is in no returned list, whatever
    the descriptions are. *)
Theorem amount_gap_not_flagged `{DL : Difflib}
    (new_transactions : list Dict.t) (db_session : list Transaction.t)
    (now : datetime) (days_lookback : Z)
    (dups : list (Dict.t * Transaction.t * Q))
    (new_trans : Dict.t) (existing : Transaction.t) (s a b : Q) :
  find_duplicate_transactions new_transactions db_session now days_lookback = Ok dups ->
  Dict.amount new_trans = Some a ->
  Transaction.amount existing = Some b ->
  Qabs (a - b) == 0.02 ->
  ~ In (new_trans, existing, s) dups.
Proof.
  intros H Ha Hb Hgap Hin.
  destruct (reported_pairs _ _ _ _ _ _ H Hin) as (n & e & s' & E & _ & Hc).
  injection E as <- <- <-.
  apply compare_pair_accepts in Hc as [(nd & ed & a' & b' & t & _ & _ & _ & Ha' & Hb' & Hamt & _) _].
  rewrite Ha in Ha'. rewrite Hb in Hb'. injection Ha' as <-. injection Hb' as <-.
  rewrite Hgap in Hamt. lra.
Qed.

Lemma amount_gap_not_flagged_witness :
  find_duplicate_transactions (DL := Instances.difflib)
    [statement_line (day 10) (-1234.58)] [stored_today] (day 12) 7 = Ok [] /\
  ~ In (statement_line (day 10) (-1234.58), stored_today, 1)
       (@nil (Dict.t * Transaction.t * Q)).
Proof.
  split; [vm_compute; reflexivity|].
  apply (amount_gap_not_flagged (DL := Instances.difflib)
           [statement_line (day 10) (-1234.58)] [stored_today] (day 12) 7 []
           (statement_line (day 10) (-1234.58)) stored_today 1 (-1234.58) (-1234.56));
    [vm_compute; reflexivity | reflexivity | reflexivity | vm_compute; reflexivity].
Defined.

(** C8: the returned list is made of one contribution per new transaction,
    in order; a contribution is empty or a single tuple, and the stored row
    of that tuple is the first row of the scanned set that passes the date,
    amount and text checks.  It need not be the row with the highest score:
    on some table the reported row scores less than a later row that passes
    too. *)
Theorem first_match_wins :
  (forall (DL : Difflib)
      (new_transactions : list Dict.t) (db_session : list Transaction.t)
      (now : datetime) (days_lookback : Z)
      (dups : list (Dict.t * Transaction.t * Q)),
    find_duplicate_transactions new_transactions db_session now days_lookback = Ok dups ->
    exists contribs,
      dups = List.concat contribs /\
      Forall2
        (contribution
           (query_since db_session (now - days_lookback * microseconds_per_day)%Z))
        new_transactions contribs) /\
  (exists (new_trans : Dict.t) (first later : Transaction.t) (s1 s2 : Q),
    find_duplicate_transactions (DL := Instances.difflib)
      [new_trans] [first; later] (day 12) 7 = Ok [(new_trans, first, s1)] /\
    compare_pair (DL := Instances.difflib) new_trans later = Ok (Some s2) /\
    s1 < s2).
Proof.
  split.
  - intros DL new_transactions db_session now days_lookback dups H.
    unfold find_duplicate_transactions in H.
    apply scan_new_contributions in H as (contribs & -> & HF).
    exists contribs. split; [reflexivity | exact HF].
  - exists (statement_line (day 10) (-1234.56)), stored_yesterday, stored_today.
    eexists. eexists.
    split; [vm_compute; reflexivity|].
    split; [vm_compute; reflexivity|].
    reflexivity.
Qed.

(** The first row that passes is reported although the second one scores
    higher. *)
Lemma first_match_wins_witness :
  (exists s1 s2,
     find_duplicate_transactions (DL := Instances.difflib)
       [statement_line (day 10) (-1234.56)] [stored_yesterday; stored_today] (day 12) 7
     = Ok [(statement_line (day 10) (-1234.56), stored_yesterday, s1)] /\
     compare_pair (DL := Instances.difflib)
       (statement_line (day 10) (-1234.56)) stored_today = Ok (Some s2) /\
     s1 == 0.94 /\ s2 == 1) /\
  exists contribs,
    [(statement_line (day 10) (-1234.56), stored_yesterday,
      (0.8 * 0.3 + 1 * 0.3 + Reference.sequence_ratio "stripe technology eu" "stripe technology eu" * 0.4))]
    = List.concat contribs /\
    Forall2
      (contribution (DL := Instances.difflib)
         (query_since [stored_yesterday; stored_today] (day 12 - 7 * microseconds_per_day)%Z))
      [statement_line (day 10) (-1234.56)] contribs.
Proof.
  split.
  - eexists. eexists. split; [vm_compute; reflexivity|].
    split; [vm_compute; reflexivity|]. split; reflexivity.
  - apply (proj1 first_match_wins Instances.difflib
             [statement_line (day 10) (-1234.56)] [stored_yesterday; stored_today] (day 12) 7%Z).
    reflexivity.
Defined.

(** C10: every similarity score of the returned list is between 0.88 and
    1.0: it is 0.3 * (date factor) + 0.3 + 0.4 * (text similarity) with a
    date factor of 1 or 0.8 and a text similarity between 0.85 and 1. *)
Theorem duplicate_scores_range `{DL : Difflib}
    (new_transactions : list Dict.t) (db_session : list Transaction.t)
    (now : datetime) (days_lookback : Z)
    (dups : list (Dict.t * Transaction.t * Q))
    (new_trans : Dict.t) (existing : Transaction.t) (s : Q) :
  find_duplicate_transactions new_transactions db_session now days_lookback = Ok dups ->
  In (new_trans, existing, s) dups ->
  (0.88 <= s /\ s <= 1) /\
  exists date_factor text_similarity,
    s = date_factor * 0.3 + 1 * 0.3 + text_similarity * 0.4 /\
    (date_factor = 1 \/ date_factor = 0.8) /\
    0.85 <= text_similarity /\ text_similarity <= 1.
Proof.
  intros H Hin.
  destruct (reported_pairs _ _ _ _ _ _ H Hin) as (n & e & s' & E & _ & Hc).
  injection E as <- <- <-.
  split; [apply (compare_pair_accepts _ _ _ Hc) | apply (compare_pair_score _ _ _ Hc)].
Qed.

Lemma duplicate_scores_range_witness :
  exists dups s,
    find_duplicate_transactions (DL := Instances.difflib)
      [statement_line (day 10) (-1234.56)] [stored_yesterday; stored_today] (day 12) 7
    = Ok dups /\
    In (statement_line (day 10) (-1234.56), stored_yesterday, s) dups /\
    (0.88 <= s /\ s <= 1) /\
    exists date_factor text_similarity,
      s = date_factor * 0.3 + 1 * 0.3 + text_similarity * 0.4 /\
      (date_factor = 1 \/ date_factor = 0.8) /\
      0.85 <= text_similarity /\ text_similarity <= 1.
Proof.
  eexists. eexists.
  split; [vm_compute; reflexivity|].
  split; [left; reflexivity|].
  eapply (duplicate_scores_range (DL := Instances.difflib)
            [statement_line (day 10) (-1234.56)] [stored_yesterday; stored_today] (day 12) 7);
    [vm_compute; reflexivity | left; reflexivity].
Defined.

(** ** Exact vendor match *)

Lemma lower_char_wildcard c :
  Ascii.eqb (PyStr.lower_char c) "%" = Ascii.eqb c "%" /\
  Ascii.eqb (PyStr.lower_char c) "_" = Ascii.eqb c "_".
Proof.
  destruct c as [[] [] [] [] [] [] [] []]; vm_compute; split; reflexivity.
Qed.

Lemma lower_has_wildcard s : has_wildcard (PyStr.lower s) = has_wildcard s.
Proof.
  induction s as [|c s IH]; simpl; [reflexivity|].
  destruct (lower_char_wildcard c) as [-> ->]. rewrite IH. reflexivity.
Qed.

(** Without a wildcard, [LIKE] is equality. *)
Lemma like_match_plain pattern : forall s,
  has_wildcard pattern = false ->
  like_match pattern s = String.eqb pattern s.
Proof.
  induction pattern as [|c p IH]; intros s H; simpl in *.
  - destruct s; reflexivity.
  - apply orb_false_iff in H as [H Hp]. apply orb_false_iff in H as [H1 H2].
    rewrite H1, H2. destruct s as [|d s]; [reflexivity|].
    rewrite (IH s Hp). reflexivity.
Qed.

Lemma ilike_plain pattern name :
  has_wildcard pattern = false ->
  ilike pattern name = true <-> PyStr.lower name = PyStr.lower pattern.
Proof.
  intros H. unfold ilike.
  rewrite like_match_plain by (rewrite lower_has_wildcard; exact H).
  rewrite String.eqb_eq. split; congruence.
Qed.

Lemma find_first {A : Type} (f : A -> bool) (l : list A) (x : A) :
  In x l -> f x = true ->
  exists y, List.find f l = Some y /\ In y l /\ f y = true.
Proof.
  induction l as [|a l IH]; intros Hin Hf; simpl in *; [contradiction|].
  destruct (f a) eqn:E.
  - exists a. auto.
  - destruct Hin as [->|Hin]; [congruence|].
    destruct (IH Hin Hf) as (y & Hy & Hyl & Hfy). exists y. auto.
Qed.

(** The guard of [find_existing_vendor]: a name whose normal form is empty
    is looked up nowhere. *)
Lemma find_existing_vendor_guard `{DL : Difflib} db_session vendor_name :
  _normalize_name vendor_name = "" ->
  find_existing_vendor db_session vendor_name = (None, []).
Proof.
  intros H. unfold find_existing_vendor. rewrite H.
  destruct (PyStr.truthy vendor_name); reflexivity.
Qed.

(** C3 fails on a name made of a business suffix only: the stored vendor
    "LLC" equals the queried name "llc" case-insensitively, and the answer
    is [None]. *)
Lemma exact_match_lost_on_empty_normal_form :
  In vendor_llc [vendor_llc] /\
  PyStr.lower (Vendor.name vendor_llc) = PyStr.lower "llc" /\
  find_existing_vendor (DL := Instances.difflib) [vendor_llc] "llc" = (None, []).
Proof. vm_compute. auto. Qed.

(** C3, amended: when the queried name has a non-empty normal form and no
    [LIKE] wildcard, and a stored vendor's name equals it case-insensitively,
    the answer is a stored vendor whose name equals it case-insensitively
    (that vendor, when it is the only one), with score exactly 1; the session
    has received the one [ilike] query, and no similarity has been
    computed. *)
Theorem exact_match_short_circuits `{DL : Difflib}
    (db_session : list Vendor.t) (vendor_name : string) (vendor : Vendor.t) :
  In vendor db_session ->
  PyStr.lower (Vendor.name vendor) = PyStr.lower vendor_name ->
  has_wildcard vendor_name = false ->
  _normalize_name vendor_name <> "" ->
  exists found,
    find_existing_vendor db_session vendor_name
      = (Some (found, 1), [QueryIlike vendor_name]) /\
    List.existsb is_similarity (snd (find_existing_vendor db_session vendor_name)) = false /\
    In found db_session /\
    PyStr.lower (Vendor.name found) = PyStr.lower vendor_name /\
    ((forall other, In other db_session ->
        PyStr.lower (Vendor.name other) = PyStr.lower vendor_name -> other = vendor) ->
     found = vendor).
Proof.
  intros Hin Heq Hw Hn.
  assert (Ht : PyStr.truthy vendor_name = true).
  { destruct vendor_name; [exfalso; apply Hn; reflexivity | reflexivity]. }
  apply truthy_nonempty in Hn.
  destruct (find_first (fun v => ilike vendor_name (Vendor.name v)) db_session vendor Hin)
    as (found & Hfind & Hfin & Hlike).
  { apply ilike_plain; assumption. }
  apply ilike_plain in Hlike; [|exact Hw].
  assert (Hrun : find_existing_vendor db_session vendor_name
                 = (Some (found, 1), [QueryIlike vendor_name])).
  { unfold find_existing_vendor, _find_exact_match.
    rewrite Ht, Hn. simpl negb. cbv iota.
    rewrite Hfind. reflexivity. }
  exists found. split; [exact Hrun|]. split; [rewrite Hrun; reflexivity|].
  split; [exact Hfin|]. split; [exact Hlike|].
  intros Huniq. apply Huniq; assumption.
Qed.

Lemma exact_match_short_circuits_witness :
  exists found,
    find_existing_vendor (DL := Instances.difflib) [vendor_strive; vendor_stripe] "STRIPE"
      = (Some (found, 1), [QueryIlike "STRIPE"]) /\
    List.existsb is_similarity
      (snd (find_existing_vendor (DL := Instances.difflib)
              [vendor_strive; vendor_stripe] "STRIPE")) = false /\
    In found [vendor_strive; vendor_stripe] /\
    PyStr.lower (Vendor.name found) = PyStr.lower "STRIPE" /\
    ((forall other, In other [vendor_strive; vendor_stripe] ->
        PyStr.lower (Vendor.name other) = PyStr.lower "STRIPE" -> other = vendor_stripe) ->
     found = vendor_stripe).
Proof.
  apply (exact_match_short_circuits (DL := Instances.difflib)
           [vendor_strive; vendor_stripe] "STRIPE" vendor_stripe).
  - right; left; reflexivity.
  - reflexivity.
  - reflexivity.
  - vm_compute. discriminate.
Defined.

(** The fuzzy pass, for comparison: it scores every candidate. *)
Example fuzzy_pass_trace :
  exists found s,
    find_existing_vendor (DL := Instances.difflib) [vendor_strive; vendor_stripe] "Stripes"
    = (Some (found, s),
       [QueryIlike "Stripes"; QueryAll; QueryAll;
        Similarity "stripes" "strive";
        Similarity "stripes" "stripe";
        Similarity "stripes" "stripe payments";
        Similarity "stripes" "stripe technology";
        Similarity "stripes" "stripe"])
    /\ found = vendor_stripe /\ s == 0.9.
Proof. eexists. eexists. split; [vm_compute; reflexivity|]. split; reflexivity. Qed.

(** A wildcard in the queried name makes the [ilike] query match other
    names. *)
Example ilike_wildcard :
  ilike "a_c" "ABC" = true /\ ilike "a%" "Acme" = true /\ ilike "acme" "Acme A/S" = false.
Proof. vm_compute. auto. Qed.

(** * Further properties of the code *)

(** ** Domain verification and its penalty *)

Lemma sigmoid_range `{ML : MathLib} (x : Q) :
  0 < 1 / (1 + exp x) /\ 1 / (1 + exp x) < 1.
Proof.
  pose proof (exp_pos x) as He.
  split.
  - apply Qlt_shift_div_l; lra.
  - apply Qlt_shift_div_r; lra.
Qed.

Lemma domain_verdict_iff `{ML : MathLib} `{UL : UrlLib}
    (domain company_name : string) (response_time : Q)
    (content_matches total_words status_code : Z) :
  fst (calculate_domain_confidence domain company_name response_time
         content_matches total_words status_code) = true
  <-> passes_url_parsing domain = true /\ status_code = 200%Z.
Proof.
  unfold calculate_domain_confidence, passes_url_parsing.
  destruct (PyStr.truthy domain); simpl negb; cbv iota; simpl andb.
  2: { split; [discriminate | intros [H _]; discriminate]. }
  destruct (urlparse_netloc _) as [netloc|].
  2: { split; [discriminate | intros [H _]; discriminate]. }
  destruct (PyStr.truthy netloc); simpl negb; cbv iota.
  2: { split; [discriminate | intros [H _]; discriminate]. }
  destruct (status_code =? 200)%Z eqn:E; simpl negb; cbv iota.
  - apply Z.eqb_eq in E. split; auto.
  - apply Z.eqb_neq in E. split; [discriminate | intros [_ H]; contradiction].
Qed.

(** The verdict of [calculate_domain_confidence] is [True] exactly when the
    domain passes the URL parsing and the status code is 200. *)
Theorem domain_confidence_verdict `{ML : MathLib} `{UL : UrlLib}
    (domain company_name : string) (response_time : Q)
    (content_matches total_words status_code : Z) :
  fst (calculate_domain_confidence domain company_name response_time
         content_matches total_words status_code) = true
  <-> passes_url_parsing domain = true /\ status_code = 200%Z.
Proof. apply domain_verdict_iff. Qed.




Lemma failed_status_confidence `{ML : MathLib} `{UL : UrlLib}
    (domain company_name : string) (response_time : Q)
    (content_matches total_words status_code : Z) :
  passes_url_parsing domain = true ->
  status_code <> 200%Z ->
  exists x,
    calculate_domain_confidence domain company_name response_time
      content_matches total_words status_code = (false, x)
    /\ 0.05 <= x /\ x < 0.1
    /\ ((50 <= Z.abs (status_code - 200))%Z -> x == 0.05).
Proof.
  unfold passes_url_parsing, calculate_domain_confidence.
  intros H Hs. apply andb_true_iff in H as [Hd Hn].
  rewrite Hd. simpl negb at 1. cbv iota.
  destruct (urlparse_netloc _) as [netloc|]; [|discriminate].
  rewrite Hn. simpl negb. cbv iota.
  apply Z.eqb_neq in Hs. rewrite Hs. simpl negb. cbv iota.
  eexists. split; [reflexivity|].
  apply Z.eqb_neq in Hs.
  set (d := Z.abs (status_code - 200)).
  assert (Hd1 : (1 <= d)%Z) by (subst d; lia).
  assert (Hq : 1 <= inject_Z d) by (change 1 with (inject_Z 1); rewrite <- Zle_Qle; exact Hd1).
  assert (Hdiv : inject_Z d / 1000 == inject_Z d * (1 # 1000)) by reflexivity.
  set (t := inject_Z d / 1000) in *. clearbody t.
  unfold py_max.
  destruct (Qgtb (0.1 - t) 0.05) eqn:E.
  - apply Qgtb_true in E. split; [lra|]. split; [lra|].
    intros H50.
    assert (50 <= inject_Z d) by (change 50 with (inject_Z 50); rewrite <- Zle_Qle; exact H50).
    lra.
  - apply Qgtb_false in E. split; [lra|]. split; [lra|]. intros _. reflexivity.
Qed.

(** For every status code other than 200, a domain that passes the URL
    parsing gets [(False, x)] with [0.05 <= x < 0.1], and [x] is the floor
    0.05 as soon as the code is 50 or more away from 200. *)
Theorem domain_confidence_failed_status `{ML : MathLib} `{UL : UrlLib}
    (domain company_name : string) (response_time : Q)
    (content_matches total_words status_code : Z) :
  passes_url_parsing domain = true ->
  status_code <> 200%Z ->
  exists x,
    calculate_domain_confidence domain company_name response_time
      content_matches total_words status_code = (false, x)
    /\ 0.05 <= x /\ x < 0.1
    /\ ((50 <= Z.abs (status_code - 200))%Z -> x == 0.05).
Proof. apply failed_status_confidence. Qed.

Lemma domain_confidence_failed_status_witness :
  exists x,
    calculate_domain_confidence (ML := Instances.math) (UL := Instances.urllib)
      "stripe.com" "Stripe" 0 0 1 201 = (false, x)
    /\ 0.05 <= x /\ x < 0.1
    /\ ((50 <= Z.abs (201 - 200))%Z -> x == 0.05).
Proof.
  apply (domain_confidence_failed_status (ML := Instances.math) (UL := Instances.urllib)
           "stripe.com" "Stripe" 0 0 1 201).
  - reflexivity.
  - discriminate.
Defined.



(** ** Vendor confidence *)

(** With a vendor name, and an identification confidence that is absent or
    not negative, the vendor confidence is strictly positive and at most 1;
    without a vendor name it is 0. *)
Theorem vendor_confidence_positive `{ML : MathLib} `{DL : Difflib}
    (vendor_name : string) (transaction : Dict.t)
    (identification_confidence : option Q) :
  (forall c, identification_confidence = Some c -> 0 <= c) ->
  (vendor_name <> "" ->
     0 < calculate_vendor_confidence vendor_name transaction identification_confidence
     /\ calculate_vendor_confidence vendor_name transaction identification_confidence <= 1)
  /\ (vendor_name = "" ->
        calculate_vendor_confidence vendor_name transaction identification_confidence = 0).
Proof.
  intros Hc. split.
  - intros Hv. apply truthy_nonempty in Hv.
    unfold calculate_vendor_confidence. rewrite Hv. simpl negb. cbv iota zeta.
    match goal with
    | |- context [1 / (1 + exp ?x)] =>
        destruct (sigmoid_range x) as [Hs0 Hs1];
        set (sig := 1 / (1 + exp x)) in *; clearbody sig
    end.
    set (final :=
           if truthy_float identification_confidence
           then 0.6 * sig + 0.4 * get_or identification_confidence 0
           else sig).
    assert (Hf : 0 < final).
    { subst final. destruct identification_confidence as [c|]; simpl; [|exact Hs0].
      specialize (Hc c eq_refl). destruct (negb (Qeqb c 0)); lra. }
    clearbody final.
    unfold py_max, py_min.
    destruct (Qltb 1 final) eqn:A.
    + destruct (Qgtb 1 0) eqn:B; [split; lra | apply Qgtb_false in B; lra].
    + apply Qltb_false in A.
      destruct (Qgtb final 0) eqn:B; [split; lra | apply Qgtb_false in B; lra].
  - intros ->. reflexivity.
Qed.

Lemma vendor_confidence_positive_witness :
  0 < calculate_vendor_confidence (ML := Instances.math) (DL := Instances.difflib)
        "stripe" (statement_line (day 10) (-1234.56)) (Some 0.9)
  /\ calculate_vendor_confidence (ML := Instances.math) (DL := Instances.difflib)
       "stripe" (statement_line (day 10) (-1234.56)) (Some 0.9) <= 1.
Proof.
  apply (vendor_confidence_positive (ML := Instances.math) (DL := Instances.difflib)
           "stripe" (statement_line (day 10) (-1234.56)) (Some 0.9)).
  - intros c H. injection H as <-. discriminate.
  - discriminate.
Defined.

(** ** Fallback confidence *)

(** The fallback confidence is between 0.25 and 0.8, and at least 0.3 for
    every category but ["vendor_payment"]: the floor 0.2 of the final clamp
    is never reached. *)
Theorem llm_fallback_confidence_range `{ML : MathLib}
    (transaction : Dict.t) (category : option string) :
  0.25 <= calculate_llm_fallback_confidence transaction category
  /\ calculate_llm_fallback_confidence transaction category <= 0.8
  /\ (category <> Some "vendor_payment" ->
      0.3 <= calculate_llm_fallback_confidence transaction category).
Proof.
  unfold calculate_llm_fallback_confidence. cbv zeta.
  destruct (quality_score_bounds transaction) as [Hq _].
  set (q := calculate_transaction_quality_score transaction) in *. clearbody q.
  set (base :=
         if truthy_opt category
         then
           if String.eqb (get_or category "") "vendor_payment"
           then (if List.existsb (String.eqb (get_or category "")) ["transfer"; "salary"; "fees"]
                 then 0.3 + q * 0.4 + 0.1 else 0.3 + q * 0.4) - 0.05
           else (if List.existsb (String.eqb (get_or category "")) ["transfer"; "salary"; "fees"]
                 then 0.3 + q * 0.4 + 0.1 else 0.3 + q * 0.4)
         else 0.3 + q * 0.4).
  assert (Hb : 0.25 <= base /\ (category <> Some "vendor_payment" -> 0.3 <= base)).
  { subst base. destruct (truthy_opt category) eqn:Ht; [|split; intros; lra].
    destruct (String.eqb (get_or category "") "vendor_payment") eqn:Ev.
    - apply String.eqb_eq in Ev.
      split.
      + destruct (List.existsb _ _); lra.
      + intros Hne. exfalso. apply Hne.
        destruct category as [c|]; [simpl in Ev; congruence | discriminate].
    - destruct (List.existsb _ _); split; intros; lra. }
  clearbody base. destruct Hb as [Hb0 Hb1].
  unfold py_max, py_min.
  destruct (Qltb 0.8 base) eqn:A.
  - destruct (Qgtb 0.8 0.2) eqn:B; [|apply Qgtb_false in B; lra].
    repeat split; intros; lra.
  - apply Qltb_false in A.
    destruct (Qgtb base 0.2) eqn:B; [|apply Qgtb_false in B; lra].
    repeat split; try lra. exact Hb1.
Qed.

(** ** Similarity of vendor names *)

Lemma similarity_bounds `{DL : Difflib} (str1 str2 : string) :
  0 <= _calculate_similarity str1 str2 /\ _calculate_similarity str1 str2 <= 1.
Proof.
  unfold _calculate_similarity.
  destruct (negb (PyStr.truthy str1) || negb (PyStr.truthy str2)); [split; lra|].
  cbv zeta. destruct (Qgtb _ _); [split; lra|].
  destruct (PyStr.contains str1 str2 || PyStr.contains str2 str1); [split; lra|].
  apply ratio_range.
Qed.

(** The similarity is between 0 and 1. *)
Theorem calculate_similarity_range `{DL : Difflib} (str1 str2 : string) :
  0 <= _calculate_similarity str1 str2 /\ _calculate_similarity str1 str2 <= 1.
Proof. apply similarity_bounds. Qed.

(** The length test comes first: when one string is more than twice as long
    as the other, the similarity is 0, also when the shorter string is a
    part of the longer one. *)
Theorem calculate_similarity_length_rejection `{DL : Difflib} (str1 str2 : string) :
  (2 * PyStr.len str1 < PyStr.len str2)%nat \/ (2 * PyStr.len str2 < PyStr.len str1)%nat ->
  _calculate_similarity str1 str2 = 0.
Proof.
  intros H. unfold _calculate_similarity.
  destruct (negb (PyStr.truthy str1) || negb (PyStr.truthy str2)); [reflexivity|].
  cbv zeta.
  set (l1 := Z.of_nat (PyStr.len str1)). set (l2 := Z.of_nat (PyStr.len str2)).
  assert (Hz : (Z.max l1 l2 < 2 * Z.abs (l1 - l2))%Z) by (subst l1 l2; lia).
  assert (Hq : Qgtb (inject_Z (Z.abs (l1 - l2))) (inject_Z (Z.max l1 l2) * 0.5) = true).
  { apply Qgtb_true.
    assert (inject_Z (Z.max l1 l2) < inject_Z (2 * Z.abs (l1 - l2)))
      by (rewrite <- Zlt_Qlt; exact Hz).
    rewrite inject_Z_mult in H0. change (inject_Z 2) with 2 in H0. lra. }
  rewrite Hq. reflexivity.
Qed.

Lemma calculate_similarity_length_rejection_witness :
  PyStr.contains "stripe" "stripe payments europe" = true /\
  _calculate_similarity (DL := Instances.difflib) "stripe" "stripe payments europe" = 0.
Proof.
  split; [reflexivity|].
  apply (calculate_similarity_length_rejection (DL := Instances.difflib)
           "stripe" "stripe payments europe").
  left. vm_compute. lia.
Defined.

(** ** The fuzzy pass of [find_existing_vendor] *)

Section FuzzyPass.
Context {DL : Difflib}.

Lemma fst_bind {A B : Type} (m : Traced A) (k : A -> Traced B) :
  fst (bind m k) = fst (k (fst m)).
Proof. unfold bind. destruct m as [a l1]. simpl. destruct (k a). reflexivity. Qed.

Lemma check_nicknames_loop_range input : forall nicknames best,
  0 <= best -> best <= 1 ->
  best <= fst (_check_nicknames_loop input nicknames best)
  /\ fst (_check_nicknames_loop input nicknames best) <= 1.
Proof.
  induction nicknames as [|n rest IH]; intros best H0 H1; cbn [_check_nicknames_loop].
  - cbn [fst ret]. split; lra.
  - destruct (PyStr.truthy (PyStr.strip n)); [|apply IH; assumption].
    rewrite fst_bind. unfold traced_similarity.
    rewrite fst_bind. cbn [fst ret].
    set (s := _calculate_similarity input (_normalize_name (PyStr.strip n))).
    destruct (similarity_bounds input (_normalize_name (PyStr.strip n))) as [Hs0 Hs1].
    fold s in Hs0, Hs1.
    destruct (py_max_spec best s) as (Ha & Hb & [E|E]).
    + destruct (IH (py_max best s)) as [I0 I1]; [lra | rewrite E; lra |].
      split; lra.
    + destruct (IH (py_max best s)) as [I0 I1]; [lra | rewrite E; lra |].
      split; lra.
Qed.

Lemma check_nicknames_range input nicknames_str :
  0 <= fst (_check_nicknames input nicknames_str)
  /\ fst (_check_nicknames input nicknames_str) <= 1.
Proof.
  unfold _check_nicknames.
  destruct (check_nicknames_loop_range input (PyStr.split_on "," nicknames_str) 0
              ltac:(lra) ltac:(lra)) as [H0 H1].
  split; assumption.
Qed.

Lemma check_domain_range input domain :
  0 <= fst (_check_domain input domain) /\ fst (_check_domain input domain) <= 1.
Proof.
  unfold _check_domain, traced_similarity. cbv zeta. rewrite fst_bind. cbn [fst ret].
  apply similarity_bounds.
Qed.

Lemma Qgeb_false a b : Qgeb a b = false <-> a < b.
Proof.
  unfold Qgeb. split; intros H.
  - apply Qnot_le_lt. intros Hle. apply Qle_bool_iff in Hle. congruence.
  - destruct (Qle_bool b a) eqn:E; [|reflexivity]. apply Qle_bool_iff in E. lra.
Qed.

Ltac bool_facts :=
  repeat match goal with
  | H : _ && _ = true |- _ => apply andb_true_iff in H; destruct H
  | H : _ && _ = false |- _ => apply andb_false_iff in H; destruct H
  | H : Qgtb _ _ = true |- _ => apply Qgtb_true in H
  | H : Qgtb _ _ = false |- _ => apply Qgtb_false in H
  | H : Qgeb _ _ = true |- _ => apply Qgeb_true in H
  | H : Qgeb _ _ = false |- _ => apply Qgeb_false in H
  | H : Qltb _ _ = true |- _ => apply Qltb_true in H
  | H : Qltb _ _ = false |- _ => apply Qltb_false in H
  end.

Lemma fuzzy_step_spec input best_match best_score vendor :
  best_score <= 1 ->
  let best' := fst (fuzzy_step input 0.8 (best_match, best_score) vendor) in
  (best_score <= snd best' /\ snd best' <= 1) /\
  (best' = (best_match, best_score) \/ (fst best' = Some vendor /\ 0.8 <= snd best')) /\
  (0.8 <= _calculate_similarity input (_normalize_name (Vendor.name vendor)) ->
   _calculate_similarity input (_normalize_name (Vendor.name vendor)) <= snd best').
Proof.
  intros Hb1. cbv zeta.
  destruct (similarity_bounds input (_normalize_name (Vendor.name vendor))) as [Hs0 Hs1].
  pose proof (check_nicknames_range input (get_or (Vendor.nicknames vendor) "")) as [Hn0 Hn1].
  pose proof (check_domain_range input (get_or (Vendor.domain vendor) "")) as [Hd0 Hd1].
  unfold fuzzy_step, traced_similarity, bind, tell, ret. cbn [fst snd].
  set (s := _calculate_similarity input (_normalize_name (Vendor.name vendor))) in *.
  destruct (_check_nicknames input (get_or (Vendor.nicknames vendor) "")) as [ns ln].
  destruct (_check_domain input (get_or (Vendor.domain vendor) "")) as [ds ld].
  cbn [fst] in Hn0, Hn1, Hd0, Hd1.
  clearbody s.
  repeat match goal with
         | |- context [if ?c then _ else _] => destruct c eqn:?; cbn [fst snd]
         end;
    bool_facts;
    (split; [split; lra|]);
    (split; [first [left; reflexivity | right; split; [reflexivity | lra]] | intros; lra]).
Qed.

Lemma fuzzy_loop_spec input : forall vendors best_match best_score,
  best_score <= 1 ->
  let best' := fst (fuzzy_loop input 0.8 vendors (best_match, best_score)) in
  (best_score <= snd best' /\ snd best' <= 1) /\
  (best' = (best_match, best_score)
   \/ (exists v, fst best' = Some v /\ In v vendors /\ 0.8 <= snd best')) /\
  (forall u, In u vendors ->
     0.8 <= _calculate_similarity input (_normalize_name (Vendor.name u)) ->
     _calculate_similarity input (_normalize_name (Vendor.name u)) <= snd best').
Proof.
  induction vendors as [|v rest IH]; intros bm bs Hb; cbv zeta.
  - cbn [fuzzy_loop fst snd ret]. split; [split; lra|]. split; [left; reflexivity|].
    intros u [].
  - cbn [fuzzy_loop]. rewrite fst_bind.
    pose proof (fuzzy_step_spec input bm bs v Hb) as Hstep. cbv zeta in Hstep.
    destruct (fst (fuzzy_step input 0.8 (bm, bs) v)) as [bm1 bs1] eqn:E1.
    cbn [fst snd] in Hstep. destruct Hstep as ((Hs0 & Hs1) & Hkeep & Hcanon).
    pose proof (IH bm1 bs1 Hs1) as Hrest. cbv zeta in Hrest.
    destruct (fst (fuzzy_loop input 0.8 rest (bm1, bs1))) as [bm2 bs2] eqn:E2.
    cbn [fst snd] in *. destruct Hrest as ((Hr0 & Hr1) & Hkeep2 & Hcanon2).
    split; [split; lra|]. split.
    + destruct Hkeep2 as [Heq | (w & Hw & Hin & Hge)].
      * injection Heq as -> ->.
        destruct Hkeep as [Heq | (Hv & Hge)].
        -- left. exact Heq.
        -- right. exists v. split; [exact Hv|]. split; [left; reflexivity | exact Hge].
      * right. exists w. split; [exact Hw|]. split; [right; exact Hin | exact Hge].
    + intros u [<-|Hu] Hc.
      * specialize (Hcanon Hc). lra.
      * apply Hcanon2; assumption.
Qed.

Lemma find_fuzzy_match_spec db_session input :
  match fst (_find_fuzzy_match db_session input) with
  | Some (v, s) =>
      In v db_session /\ 0.8 <= s /\ s <= 1 /\
      forall u, In u db_session ->
        0.8 <= _calculate_similarity input (_normalize_name (Vendor.name u)) ->
        _calculate_similarity input (_normalize_name (Vendor.name u)) <= s
  | None =>
      forall u, In u db_session ->
        _calculate_similarity input (_normalize_name (Vendor.name u)) < 0.8
  end.
Proof.
  unfold _find_fuzzy_match. rewrite fst_bind. cbv zeta. rewrite fst_bind. cbn [ret fst].
  pose proof (fuzzy_loop_spec input db_session None 0 ltac:(lra)) as H. cbv zeta in H.
  destruct (fst (fuzzy_loop input 0.8 db_session (None, 0))) as [bm bs].
  cbn [fst snd] in H. destruct H as ((H0 & H1) & Hkeep & Hcanon).
  destruct Hkeep as [Heq | (v & Hv & Hin & Hge)].
  - injection Heq as -> ->. intros u Hu.
    apply Qnot_le_lt. intros Hc. specialize (Hcanon u Hu Hc). lra.
  - subst bm. repeat split; assumption.
Qed.

End FuzzyPass.

(** ** What [find_existing_vendor] answers *)

Section FindExistingVendor.
Context {DL : Difflib}.

Lemma normalize_nonempty_truthy name :
  _normalize_name name <> "" -> PyStr.truthy name = true.
Proof.
  intros H. destruct name; [exfalso; apply H; reflexivity | reflexivity].
Qed.

(** The three passes, on the value returned. *)
Lemma find_existing_vendor_value db_session vendor_name :
  _normalize_name vendor_name <> "" ->
  fst (find_existing_vendor db_session vendor_name) =
  match List.find (fun v => ilike vendor_name (Vendor.name v)) db_session with
  | Some v => Some (v, 1)
  | None =>
      match List.find
              (fun v => String.eqb (_normalize_name (Vendor.name v))
                                   (_normalize_name vendor_name))
              db_session with
      | Some v => Some (v, 1)
      | None => fst (_find_fuzzy_match db_session (_normalize_name vendor_name))
      end
  end.
Proof.
  intros Hn. unfold find_existing_vendor.
  rewrite (normalize_nonempty_truthy _ Hn).
  apply truthy_nonempty in Hn. rewrite Hn. cbn [negb]. cbv zeta.
  rewrite fst_bind. unfold _find_exact_match. rewrite fst_bind.
  destruct (List.find (fun v => ilike vendor_name (Vendor.name v)) db_session) as [v|].
  - reflexivity.
  - rewrite fst_bind. cbn [fst ret].
    destruct (List.find _ db_session) as [v|]; reflexivity.
Qed.

Lemma found_vendor_in_table
    (db_session : list Vendor.t) (vendor_name : string) (vendor : Vendor.t) (s : Q) :
  fst (find_existing_vendor db_session vendor_name) = Some (vendor, s) ->
  In vendor db_session /\ 0.8 <= s /\ s <= 1.
Proof.
  intros H.
  destruct (string_dec (_normalize_name vendor_name) "") as [E|E].
  { rewrite find_existing_vendor_guard in H by exact E. discriminate. }
  rewrite find_existing_vendor_value in H by exact E.
  destruct (List.find (fun v => ilike vendor_name (Vendor.name v)) db_session) as [v|] eqn:F1.
  { injection H as <- <-. apply List.find_some in F1 as [Hin _].
    split; [exact Hin|]. split; lra. }
  destruct (List.find _ db_session) as [v|] eqn:F2 in H.
  { injection H as <- <-. apply List.find_some in F2 as [Hin _].
    split; [exact Hin|]. split; lra. }
  pose proof (find_fuzzy_match_spec db_session (_normalize_name vendor_name)) as Hf.
  rewrite H in Hf. destruct Hf as (Hin & H0 & H1 & _). auto.
Qed.

(** Whatever is found is a row of the table, with a score between the
    threshold 0.8 and 1. *)
Theorem find_existing_vendor_sound
    (db_session : list Vendor.t) (vendor_name : string) (vendor : Vendor.t) (s : Q) :
  fst (find_existing_vendor db_session vendor_name) = Some (vendor, s) ->
  In vendor db_session /\ 0.8 <= s /\ s <= 1.
Proof. apply found_vendor_in_table. Qed.

(** Best match wins: a stored vendor whose normalized name scores 0.8 or
    more against the normalized query makes the lookup succeed, with a score
    at least as high. *)
Theorem find_existing_vendor_best
    (db_session : list Vendor.t) (vendor_name : string) (candidate : Vendor.t) :
  _normalize_name vendor_name <> "" ->
  In candidate db_session ->
  0.8 <= _calculate_similarity (_normalize_name vendor_name)
           (_normalize_name (Vendor.name candidate)) ->
  exists vendor s,
    fst (find_existing_vendor db_session vendor_name) = Some (vendor, s) /\
    _calculate_similarity (_normalize_name vendor_name)
      (_normalize_name (Vendor.name candidate)) <= s.
Proof.
  intros Hn Hin Hc.
  rewrite find_existing_vendor_value by exact Hn.
  destruct (similarity_bounds (_normalize_name vendor_name)
              (_normalize_name (Vendor.name candidate))) as [_ Hle].
  destruct (List.find (fun v => ilike vendor_name (Vendor.name v)) db_session) as [v|].
  { exists v, 1. split; [reflexivity | exact Hle]. }
  destruct (List.find _ db_session) as [v|].
  { exists v, 1. split; [reflexivity | exact Hle]. }
  pose proof (find_fuzzy_match_spec db_session (_normalize_name vendor_name)) as Hf.
  destruct (fst (_find_fuzzy_match db_session (_normalize_name vendor_name))) as [[v s]|].
  - destruct Hf as (_ & _ & _ & Hbest). exists v, s. split; [reflexivity|].
    apply Hbest; assumption.
  - specialize (Hf candidate Hin). lra.
Qed.

(** A stored vendor with the same normalized name as the query is an exact
    match: the lookup answers with score 1 and computes no similarity. *)
Theorem find_existing_vendor_normalized
    (db_session : list Vendor.t) (vendor_name : string) (vendor : Vendor.t) :
  _normalize_name vendor_name <> "" ->
  In vendor db_session ->
  _normalize_name (Vendor.name vendor) = _normalize_name vendor_name ->
  exists found,
    fst (find_existing_vendor db_session vendor_name) = Some (found, 1) /\
    In found db_session /\
    List.existsb is_similarity (snd (find_existing_vendor db_session vendor_name)) = false.
Proof.
  intros Hn Hin Heq.
  unfold find_existing_vendor, _find_exact_match.
  rewrite (normalize_nonempty_truthy _ Hn).
  pose proof Hn as Ht. apply truthy_nonempty in Ht. rewrite Ht. cbn [negb]. cbv zeta.
  destruct (List.find (fun v => ilike vendor_name (Vendor.name v)) db_session) as [v|] eqn:F1.
  { exists v. apply List.find_some in F1 as [Hv _].
    split; [reflexivity|]. split; [exact Hv | reflexivity]. }
  destruct (find_first
              (fun v => String.eqb (_normalize_name (Vendor.name v)) (_normalize_name vendor_name))
              db_session vendor Hin) as (found & Hfind & Hfin & _).
  { apply String.eqb_eq. exact Heq. }
  exists found. unfold bind, tell, ret. rewrite Hfind. cbn.
  split; [reflexivity|]. split; [exact Hfin | reflexivity].
Qed.

End FindExistingVendor.

Lemma find_existing_vendor_sound_witness :
  In vendor_stripe [vendor_strive; vendor_stripe] /\ 0.8 <= 0.9 /\ 0.9 <= 1.
Proof.
  apply (find_existing_vendor_sound (DL := Instances.difflib)
           [vendor_strive; vendor_stripe] "Stripes" vendor_stripe 0.9).
  vm_compute. reflexivity.
Defined.

Lemma find_existing_vendor_best_witness :
  exists vendor s,
    fst (find_existing_vendor (DL := Instances.difflib)
           [vendor_strive; vendor_stripe] "Stripes") = Some (vendor, s) /\
    _calculate_similarity (DL := Instances.difflib)
      (_normalize_name "Stripes") (_normalize_name (Vendor.name vendor_stripe)) <= s.
Proof.
  apply (find_existing_vendor_best (DL := Instances.difflib)
           [vendor_strive; vendor_stripe] "Stripes" vendor_stripe).
  - vm_compute. discriminate.
  - right; left; reflexivity.
  - vm_compute. discriminate.
Defined.

Lemma find_existing_vendor_normalized_witness :
  exists found,
    fst (find_existing_vendor (DL := Instances.difflib)
           [vendor_strive; vendor_stripe] "Stripe Inc.") = Some (found, 1) /\
    In found [vendor_strive; vendor_stripe] /\
    List.existsb is_similarity
      (snd (find_existing_vendor (DL := Instances.difflib)
              [vendor_strive; vendor_stripe] "Stripe Inc.")) = false.
Proof.
  apply (find_existing_vendor_normalized (DL := Instances.difflib)
           [vendor_strive; vendor_stripe] "Stripe Inc." vendor_stripe).
  - vm_compute. discriminate.
  - right; left; reflexivity.
  - vm_compute. reflexivity.
Defined.

(** ** Splitting, joining and stripping *)

Lemma append_empty_r (s : string) : s ++ "" = s.
Proof. induction s as [|c s IH]; simpl; [reflexivity | rewrite IH; reflexivity]. Qed.

Lemma append_assoc (a b c : string) : (a ++ b) ++ c = a ++ (b ++ c).
Proof. induction a as [|x a IH]; simpl; [reflexivity | rewrite IH; reflexivity]. Qed.

Lemma rev_string_append : forall s acc,
  PyStr.rev_string acc s = PyStr.rev_string "" s ++ acc.
Proof.
  induction s as [|c s IH]; intros acc; simpl; [reflexivity|].
  rewrite (IH (String c acc)), (IH (String c "")).
  rewrite append_assoc. reflexivity.
Qed.

Lemma split_on_aux_lacks sep : forall s cur,
  lacks sep s = true ->
  PyStr.split_on_aux sep cur s = [PyStr.rev_string "" cur ++ s].
Proof.
  induction s as [|c s IH]; intros cur H; simpl in *.
  - rewrite append_empty_r. reflexivity.
  - apply andb_true_iff in H as [Hc Hs]. apply negb_true_iff in Hc. rewrite Hc.
    rewrite (IH _ Hs). simpl. rewrite (rev_string_append cur (String c "")).
    rewrite append_assoc. reflexivity.
Qed.

Lemma split_on_aux_sep sep rest : forall p cur,
  lacks sep p = true ->
  PyStr.split_on_aux sep cur (p ++ String sep rest)
  = (PyStr.rev_string "" cur ++ p) :: PyStr.split_on_aux sep "" rest.
Proof.
  induction p as [|c p IH]; intros cur H; simpl in *.
  - rewrite Ascii.eqb_refl, append_empty_r. reflexivity.
  - apply andb_true_iff in H as [Hc Hp]. apply negb_true_iff in Hc. rewrite Hc.
    rewrite (IH _ Hp). simpl. rewrite (rev_string_append cur (String c "")).
    rewrite append_assoc. reflexivity.
Qed.

(** Splitting what was joined gives the parts back, when no part contains
    the separator. *)
Lemma split_on_join sep : forall parts,
  parts <> [] ->
  Forall (fun p => lacks sep p = true) parts ->
  PyStr.split_on sep (PyStr.join (String sep "") parts) = parts.
Proof.
  induction parts as [|p rest IH]; intros Hne Hall; [congruence|].
  inversion Hall as [|? ? Hp Hrest]; subst.
  destruct rest as [|q rest].
  - unfold PyStr.split_on. simpl. apply split_on_aux_lacks. exact Hp.
  - unfold PyStr.split_on. change (PyStr.join (String sep "") (p :: q :: rest))
      with (p ++ String sep (PyStr.join (String sep "") (q :: rest))).
    rewrite split_on_aux_sep by exact Hp. simpl append.
    f_equal. apply IH; [discriminate | exact Hrest].
Qed.

Lemma lower_append (a b : string) : PyStr.lower (a ++ b) = PyStr.lower a ++ PyStr.lower b.
Proof. induction a as [|c a IH]; simpl; [reflexivity | rewrite IH; reflexivity]. Qed.

Lemma lower_join_dot : forall parts,
  PyStr.lower (PyStr.join "." parts) = PyStr.join "." (List.map PyStr.lower parts).
Proof.
  induction parts as [|p rest IH]; [reflexivity|].
  destruct rest as [|q rest]; [reflexivity|].
  change (PyStr.join "." (p :: q :: rest)) with (p ++ "." ++ PyStr.join "." (q :: rest)).
  rewrite !lower_append, IH. reflexivity.
Qed.

Lemma lower_char_dot c : Ascii.eqb (PyStr.lower_char c) "." = Ascii.eqb c ".".
Proof. destruct c as [[] [] [] [] [] [] [] []]; vm_compute; reflexivity. Qed.

Lemma lower_lacks_dot s : lacks "." (PyStr.lower s) = lacks "." s.
Proof.
  induction s as [|c s IH]; simpl; [reflexivity|].
  rewrite lower_char_dot, IH. reflexivity.
Qed.

Lemma second_to_last_app (before : list string) (a b : string) :
  second_to_last (before ++ [a; b]) = a.
Proof.
  induction before as [|x before IH]; [reflexivity|].
  simpl app. destruct before as [|y before]; [reflexivity|].
  simpl app in *. destruct before as [|z before]; simpl in *; exact IH.
Qed.

(** *** [strip] *)

Lemma lstrip_clean s : starts_clean (PyStr.lstrip s).
Proof.
  induction s as [|c s IH]; simpl; [exact I|].
  destruct (PyStr.is_space c) eqn:E; [exact IH | exact E].
Qed.

Lemma lstrip_of_clean s : starts_clean s -> PyStr.lstrip s = s.
Proof. destruct s as [|c s]; simpl; [reflexivity | intros ->; reflexivity]. Qed.

Lemma rstrip_clean s : starts_clean s -> starts_clean (PyStr.rstrip s).
Proof.
  destruct s as [|c s]; simpl; [trivial|]. intros H.
  destruct (PyStr.rstrip s); [rewrite H|]; exact H.
Qed.

Lemma rstrip_idempotent s : PyStr.rstrip (PyStr.rstrip s) = PyStr.rstrip s.
Proof.
  induction s as [|c s IH]; simpl; [reflexivity|].
  destruct (PyStr.rstrip s) as [|d r] eqn:E.
  - destruct (PyStr.is_space c) eqn:Ec; simpl; [reflexivity | rewrite Ec; reflexivity].
  - simpl in IH |- *. destruct (PyStr.rstrip r) as [|e r'] eqn:Er.
    + destruct (PyStr.is_space d); [discriminate | rewrite IH; reflexivity].
    + rewrite IH. reflexivity.
Qed.

(** Stripping twice is stripping once. *)
Lemma strip_idempotent s : PyStr.strip (PyStr.strip s) = PyStr.strip s.
Proof.
  unfold PyStr.strip.
  rewrite (lstrip_of_clean (PyStr.rstrip (PyStr.lstrip s)))
    by (apply rstrip_clean, lstrip_clean).
  apply rstrip_idempotent.
Qed.

Lemma lstrip_lacks c s : lacks c s = true -> lacks c (PyStr.lstrip s) = true.
Proof.
  induction s as [|d s IH]; simpl; [trivial|]. intros H.
  destruct (PyStr.is_space d); [|exact H].
  apply andb_true_iff in H as [_ H]. auto.
Qed.

Lemma rstrip_lacks c s : lacks c s = true -> lacks c (PyStr.rstrip s) = true.
Proof.
  induction s as [|d s IH]; simpl; [trivial|]. intros H.
  apply andb_true_iff in H as [Hd Hs]. specialize (IH Hs).
  destruct (PyStr.rstrip s) as [|e r].
  - destruct (PyStr.is_space d); simpl; [reflexivity | rewrite Hd; reflexivity].
  - simpl in *. rewrite Hd. exact IH.
Qed.

Lemma strip_lacks c s : lacks c s = true -> lacks c (PyStr.strip s) = true.
Proof. intros H. apply rstrip_lacks, lstrip_lacks, H. Qed.

(** ** Domain label and nicknames in the fuzzy pass *)

Section DomainAndNicknames.
Context {DL : Difflib}.

(** The domain is compared through the label before its last dot, in lower
    case, whatever comes before: for [sub.example.co.uk] this is [co]. *)
Theorem check_domain_label (normalized_input : string)
    (labels_before : list string) (label last : string) :
  Forall (fun p => lacks "." p = true) (labels_before ++ [label; last]) ->
  _check_domain normalized_input (PyStr.join "." (labels_before ++ [label; last]))
  = traced_similarity normalized_input (PyStr.lower label).
Proof.
  intros Hall. unfold _check_domain. cbv zeta.
  rewrite lower_join_dot.
  rewrite split_on_join.
  - rewrite List.length_map, List.length_app. simpl List.length.
    replace (1 <? List.length labels_before + 2)%nat with true
      by (symmetry; apply Nat.ltb_lt; lia).
    rewrite List.map_app. simpl List.map. rewrite second_to_last_app. reflexivity.
  - destruct labels_before; discriminate.
  - apply Forall_forall. intros p Hp. apply in_map_iff in Hp as (x & <- & Hx).
    rewrite lower_lacks_dot. rewrite Forall_forall in Hall. apply Hall. exact Hx.
Qed.


Lemma check_nicknames_loop_cleaned normalized_input : forall nicknames best,
  _check_nicknames_loop normalized_input
    (List.map PyStr.strip (List.filter PyStr.truthy nicknames)) best
  = _check_nicknames_loop normalized_input nicknames best.
Proof.
  induction nicknames as [|n rest IH]; intros best; [reflexivity|].
  destruct n as [|c n].
  - simpl List.filter. rewrite IH. reflexivity.
  - change (List.filter PyStr.truthy (String c n :: rest))
      with (String c n :: List.filter PyStr.truthy rest).
    cbn [List.map _check_nicknames_loop].
    rewrite strip_idempotent.
    destruct (PyStr.truthy (PyStr.strip (String c n))); [|apply IH].
    unfold bind. destruct (traced_similarity _ _) as [s l1].
    rewrite IH. reflexivity.
Qed.

(** Nicknames saved from a list are read back one by one: scoring against
    the stored comma-joined string computes the similarities it would
    compute on the list itself, as long as no nickname contains a comma. *)
Theorem nicknames_round_trip (normalized_input : string) (nicknames : list string) :
  Forall (fun n => lacks "," n = true) nicknames ->
  _check_nicknames normalized_input (_format_nicknames (Some (NickList nicknames)))
  = _check_nicknames_loop normalized_input nicknames 0.
Proof.
  intros Hall. unfold _check_nicknames, _format_nicknames.
  rewrite <- (check_nicknames_loop_cleaned normalized_input nicknames 0).
  destruct (List.map PyStr.strip (List.filter PyStr.truthy nicknames)) as [|p rest] eqn:E.
  - reflexivity.
  - rewrite <- E. rewrite split_on_join; [reflexivity | rewrite E; discriminate |].
    apply Forall_forall. intros x Hx. apply in_map_iff in Hx as (y & <- & Hy).
    apply filter_In in Hy as [Hy _]. apply strip_lacks.
    rewrite Forall_forall in Hall. apply Hall. exact Hy.
Qed.


End DomainAndNicknames.

Lemma check_domain_label_witness :
  _check_domain (DL := Instances.difflib) "example"
    (PyStr.join "." (["sub"; "example"] ++ ["co"; "uk"]))
  = traced_similarity (DL := Instances.difflib) "example" (PyStr.lower "co").
Proof.
  apply (check_domain_label (DL := Instances.difflib) "example" ["sub"; "example"] "co" "uk").
  repeat constructor.
Defined.

Lemma nicknames_round_trip_witness :
  _check_nicknames (DL := Instances.difflib) "stripe"
    (_format_nicknames (Some (NickList [" Stripe Payments "; ""; "stripe.com"])))
  = _check_nicknames_loop (DL := Instances.difflib) "stripe"
      [" Stripe Payments "; ""; "stripe.com"] 0.
Proof.
  apply (nicknames_round_trip (DL := Instances.difflib) "stripe"
           [" Stripe Payments "; ""; "stripe.com"]).
  repeat constructor.
Defined.

(** A nickname with a comma is read back as two nicknames. *)
Example nickname_with_comma :
  PyStr.split_on "," (_format_nicknames (Some (NickList ["Acme, Inc"; "ACME"])))
  = ["Acme"; " Inc"; "ACME"].
Proof. reflexivity. Qed.

(** ** Creating vendors *)

Lemma like_match_refl : forall s, like_match s s = true.
Proof.
  induction s as [|c s IH]; [reflexivity|].
  cbn [like_match].
  destruct (Ascii.eqb c "%") eqn:E1.
  - apply orb_true_iff. right. destruct s as [|d s'].
    + reflexivity.
    + apply orb_true_iff. left. exact IH.
  - destruct (Ascii.eqb c "_") eqn:E2; [exact IH|].
    rewrite Ascii.eqb_refl. exact IH.
Qed.

Lemma name_taken_find (table : list Vendor.t) (name : string) :
  name_taken table name = true ->
  exists existing,
    List.find (fun v => ilike name (Vendor.name v)) table = Some existing /\
    In existing table.
Proof.
  unfold name_taken. intros H. apply List.existsb_exists in H as (v & Hin & Hv).
  apply String.eqb_eq in Hv.
  destruct (find_first (fun u => ilike name (Vendor.name u)) table v Hin) as (y & Hy & Hyin & _).
  - unfold ilike. rewrite Hv. apply like_match_refl.
  - exists y. auto.
Qed.

Section CreateOrGet.
Context {DL : Difflib}.

(** What a call does to the table: nothing, or one row added at the end,
    named as the enrichment says, when no row had that name. *)
Lemma create_or_get_vendor_table db_session vendor_name vendor_info :
  let outcome := create_or_get_vendor db_session vendor_name vendor_info in
  let name := get_or (VendorInfo.name vendor_info) vendor_name in
  (snd outcome = db_session /\
   exists row, fst outcome = Stored row /\ In row db_session) \/
  (name_taken db_session name = false /\
   exists row, fst outcome = Stored row /\ Vendor.name row = name /\
     snd outcome = (db_session ++ [row])%list).
Proof.
  cbv zeta. unfold create_or_get_vendor.
  destruct (fst (find_existing_vendor db_session vendor_name)) as [[v s]|] eqn:F1.
  { left. split; [reflexivity|]. exists v. split; [reflexivity|].
    apply (found_vendor_in_table _ _ _ _ F1). }
  cbv zeta.
  destruct (if negb (String.eqb (get_or (VendorInfo.name vendor_info) vendor_name) vendor_name)
            then fst (find_existing_vendor db_session
                        (get_or (VendorInfo.name vendor_info) vendor_name))
            else None) as [[v s]|] eqn:F2.
  { left. split; [reflexivity|]. exists v. split; [reflexivity|].
    destruct (negb _); [|discriminate].
    apply (found_vendor_in_table _ _ _ _ F2). }
  unfold _create_new_vendor. cbv zeta.
  destruct (name_taken db_session (get_or (VendorInfo.name vendor_info) vendor_name)) eqn:T.
  - left. destruct (name_taken_find _ _ T) as (e & -> & Hin).
    split; [reflexivity|]. exists e. split; [reflexivity | exact Hin].
  - right. split; [reflexivity|]. eexists. split; [reflexivity|]. split; reflexivity.
Qed.



Lemma name_taken_unchanged db_session vendor_name vendor_info :
  name_taken db_session (get_or (VendorInfo.name vendor_info) vendor_name) = true ->
  snd (create_or_get_vendor db_session vendor_name vendor_info) = db_session.
Proof.
  intros T.
  destruct (create_or_get_vendor_table db_session vendor_name vendor_info)
    as [(Ht & _) | (Hf & _)]; [exact Ht | congruence].
Qed.

(** Asking twice for the same vendor adds at most one row: the second call
    leaves the table as the first one left it. *)
Theorem create_or_get_vendor_idempotent
    (db_session : list Vendor.t) (vendor_name : string) (vendor_info : VendorInfo.t) :
  let after := snd (create_or_get_vendor db_session vendor_name vendor_info) in
  snd (create_or_get_vendor after vendor_name vendor_info) = after.
Proof.
  cbv zeta.
  destruct (create_or_get_vendor_table db_session vendor_name vendor_info)
    as [(Ht & _) | (_ & row & _ & Hname & Ht)]; rewrite Ht.
  - exact Ht.
  - apply name_taken_unchanged. unfold name_taken.
    rewrite List.existsb_app. simpl. rewrite Hname, String.eqb_refl.
    rewrite orb_true_r. reflexivity.
Qed.

End CreateOrGet.

(** A first call that creates the vendor, a second one that finds it. *)
Example create_then_get :
  let info := VendorInfo.mk (Some "Netflix") (Some (NickList ["Netflix.com"])) (Some "netflix.com") in
  let first := create_or_get_vendor (DL := Instances.difflib) [vendor_stripe] "NETFLIX.COM" info in
  let second := create_or_get_vendor (DL := Instances.difflib) (snd first) "NETFLIX.COM" info in
  snd first = [vendor_stripe; Vendor.mk 8 "Netflix" (Some "Netflix.com") (Some "netflix.com")] /\
  fst second = fst first /\ snd second = snd first.
Proof. vm_compute. repeat split. Qed.

(** ** The equality check of the CSV re-submission *)

Lemma Qltb_compat a a' b : a == a' -> Qltb a b = Qltb a' b.
Proof. intros H. unfold Qltb. rewrite H. reflexivity. Qed.

Lemma total_seconds_swap d1 d2 :
  Qabs (total_seconds d1 d2) == Qabs (total_seconds d2 d1).
Proof.
  unfold total_seconds.
  replace (d1 - d2)%Z with (- (d2 - d1))%Z by lia.
  rewrite inject_Z_opp.
  setoid_replace (- inject_Z (d2 - d1) / inject_Z microseconds_per_second)
    with (- (inject_Z (d2 - d1) / inject_Z microseconds_per_second))
    by (unfold Qdiv; ring).
  apply Qabs_opp.
Qed.

(** The check does not depend on the order of its arguments. *)
Theorem transactions_match_symmetric (trans1 trans2 : Dict.t) :
  _transactions_match trans1 trans2 = _transactions_match trans2 trans1.
Proof.
  unfold _transactions_match.
  destruct (Dict.date trans1) as [d1|], (Dict.date trans2) as [d2|]; try reflexivity.
  rewrite (Qabs_Qminus (get_or (Dict.amount trans1) 0) (get_or (Dict.amount trans2) 0)).
  rewrite (Qltb_compat _ _ _ (total_seconds_swap d1 d2)).
  rewrite String.eqb_sym. reflexivity.
Qed.

(** A transaction with a date matches itself. *)
Lemma transactions_match_reflexive (trans : Dict.t) :
  Dict.date trans <> None -> _transactions_match trans trans = true.
Proof.
  unfold _transactions_match. destruct (Dict.date trans) as [d|]; [intros _ | congruence].
  rewrite String.eqb_refl.
  rewrite (Qltb_compat _ 0 _).
  2: { rewrite Qabs_wd with (y := 0); [reflexivity | ring]. }
  unfold total_seconds. rewrite Z.sub_diag. reflexivity.
Qed.

(** ** Vendor resolution and its cache *)

Lemma cache_get_set key value : forall cache,
  cache_get key (cache_set key value cache) = Some value.
Proof.
  induction cache as [|[k v] rest IH]; simpl.
  - rewrite String.eqb_refl. reflexivity.
  - destruct (String.eqb k key) eqn:E; simpl; rewrite E; [reflexivity | exact IH].
Qed.

Lemma cache_set_nonempty key value cache : cache_set key value cache <> [].
Proof.
  destruct cache as [|[k v] rest]; simpl; [discriminate|].
  destruct (String.eqb k key); discriminate.
Qed.

Section VendorResolution.
Context {DL : Difflib}.

(** With a cache that is not empty, what a call resolves is found again:
    the next call for a name with the same lower-case form answers from the
    cache, with the same vendor and confidence, and touches nothing. *)
Theorem cached_vendor_reused
    (db_session db_session' : list Vendor.t) (vendor_name vendor_name' : string)
    (cache : vendor_cache) (cache' : option vendor_cache)
    (transaction_data transaction_data' : option Dict.t)
    (enrichment enrichment' : Enriched.t)
    (vendor : vendor_object) (confidence : Q) (source : string) :
  cache <> [] ->
  process_vendor_for_transaction db_session (Some vendor_name) "vendor_payment"
    (Some cache) transaction_data enrichment
  = (Done (Some vendor, confidence, source), cache', db_session') ->
  vendor_name' <> "" ->
  PyStr.lower vendor_name' = PyStr.lower vendor_name ->
  process_vendor_for_transaction db_session' (Some vendor_name') "vendor_payment"
    cache' transaction_data' enrichment'
  = (Done (Some vendor, confidence, "cache"), cache', db_session').
Proof.
  intros Hne H Hn' Hlow.
  assert (Hhit : forall c d,
             c <> [] -> cache_get (PyStr.lower vendor_name) c = Some (vendor, confidence) ->
             process_vendor_for_transaction d (Some vendor_name') "vendor_payment"
               (Some c) transaction_data' enrichment'
             = (Done (Some vendor, confidence, "cache"), Some c, d)).
  { intros c d Hc Hget. unfold process_vendor_for_transaction.
    apply truthy_nonempty in Hn'. cbn [truthy_opt get_or]. rewrite Hn'. cbn [negb orb String.eqb].
    destruct c as [|entry rest]; [congruence|].
    cbv zeta. cbn [get_or]. rewrite Hlow, Hget. reflexivity. }
  unfold process_vendor_for_transaction in H.
  destruct (negb (truthy_opt (Some vendor_name)) || negb (String.eqb "vendor_payment" "vendor_payment"));
    [discriminate|].
  destruct cache as [|entry rest]; [congruence|].
  cbv zeta in H. cbn [get_or] in H.
  destruct (cache_get (PyStr.lower vendor_name) (entry :: rest)) as [[cv cc]|] eqn:G.
  { injection H as <- <- <- <- <-. apply Hhit; [discriminate | exact G]. }
  destruct (fst (find_existing_vendor db_session vendor_name)) as [[v s]|].
  - destruct transaction_data; [discriminate|].
    cbn [fst snd] in H. injection H as <- <- <- <- <-.
    apply Hhit;
      [exact (cache_set_nonempty (PyStr.lower vendor_name) (Stored v, s) (entry :: rest))
      |exact (cache_get_set (PyStr.lower vendor_name) (Stored v, s) (entry :: rest))].
  - injection H as <- <- <- <- <-.
    apply Hhit;
      [exact (cache_set_nonempty (PyStr.lower vendor_name) _ (entry :: rest))
      |exact (cache_get_set (PyStr.lower vendor_name) _ (entry :: rest))].
Qed.

(** With an empty cache, or none, what a call resolves is lost: the
    dictionary of the caller is left as it was, and no call answers from
    the cache. *)
Theorem empty_cache_stays_empty
    (db_session : list Vendor.t) (vendor_name : option string) (category : string)
    (vendor_cache_arg : option vendor_cache) (transaction_data : option Dict.t)
    (enrichment : Enriched.t) :
  vendor_cache_arg = None \/ vendor_cache_arg = Some [] ->
  let '(returned, cache', _) :=
    process_vendor_for_transaction db_session vendor_name category
      vendor_cache_arg transaction_data enrichment in
  cache' = vendor_cache_arg /\
  forall vendor confidence source,
    returned = Done (vendor, confidence, source) -> source <> "cache".
Proof.
  intros Hc. unfold process_vendor_for_transaction.
  destruct (negb (truthy_opt vendor_name) || negb (String.eqb category "vendor_payment")).
  { split; [reflexivity|]. intros v c s H. injection H as _ _ <-. discriminate. }
  cbv zeta.
  assert (Hshared : match vendor_cache_arg with Some (_ :: _) => true | _ => false end = false)
    by (destruct Hc as [-> | ->]; reflexivity).
  rewrite Hshared. cbn [cache_get].
  destruct (fst (find_existing_vendor db_session (get_or vendor_name ""))) as [[v s]|].
  - destruct transaction_data.
    + split; [reflexivity|]. intros ? ? ? H. discriminate.
    + split; [reflexivity|]. intros ? ? ? H. injection H as _ _ <-. discriminate.
  - split; [reflexivity|]. intros ? ? ? H. injection H as _ _ <-. discriminate.
Qed.



End VendorResolution.

Lemma empty_cache_stays_empty_witness :
  let '(returned, cache', _) :=
    process_vendor_for_transaction (DL := Instances.difflib) [vendor_stripe]
      (Some "STRIPE") "vendor_payment" (Some []) None
      (Enriched.mk "Stripe" [] None 0.9) in
  cache' = Some [] /\
  forall vendor confidence source,
    returned = Done (vendor, confidence, source) -> source <> "cache".
Proof.
  apply (empty_cache_stays_empty (DL := Instances.difflib) [vendor_stripe]
           (Some "STRIPE") "vendor_payment" (Some []) None (Enriched.mk "Stripe" [] None 0.9)).
  right. reflexivity.
Defined.

Lemma cached_vendor_reused_witness :
  process_vendor_for_transaction (DL := Instances.difflib) [vendor_stripe]
    (Some "stripe") "vendor_payment"
    (Some (cache_set "stripe" (Stored vendor_stripe, 1)
             [("netflix", (Stored vendor_strive, 0.9))]))
    (Some (statement_line (day 10) (-1234.56))) (Enriched.mk "Stripe" [] None 0.9)
  = (Done (Some (Stored vendor_stripe), 1, "cache"),
     Some (cache_set "stripe" (Stored vendor_stripe, 1)
             [("netflix", (Stored vendor_strive, 0.9))]),
     [vendor_stripe]).
Proof.
  apply (cached_vendor_reused (DL := Instances.difflib) [vendor_stripe] [vendor_stripe]
           "STRIPE" "stripe" [("netflix", (Stored vendor_strive, 0.9))]
           (Some (cache_set "stripe" (Stored vendor_stripe, 1)
                    [("netflix", (Stored vendor_strive, 0.9))]))
           None (Some (statement_line (day 10) (-1234.56)))
           (Enriched.mk "Stripe" [] None 0.9) (Enriched.mk "Stripe" [] None 0.9)
           (Stored vendor_stripe) 1 "database").
  - discriminate.
  - vm_compute. reflexivity.
  - discriminate.
  - reflexivity.
Defined.


(** ** Processing a CSV with the duplicate check *)

Section CsvCheck.
Context {DL : Difflib}.
Context {TransactionObject ResultRow : Type}.
Variable create_transaction_record : Dict.t -> string -> Q -> result TransactionObject.

Lemma process_transactions_done
    (db_session : list Vendor.t) (transactions : list Dict.t)
    (batch_results : list FastBatchResult.t) (enrichment : Enriched.t)
    (results : list ResultRow) :
  fst (_process_transactions create_transaction_record db_session
         transactions batch_results enrichment) = Done results ->
  results = [] /\
  (transactions = [] \/ batch_results = []) /\
  snd (_process_transactions (ResultRow := ResultRow) create_transaction_record db_session
         transactions batch_results enrichment) = db_session.
Proof.
  unfold _process_transactions.
  destruct transactions as [|t ts].
  { cbn [fst snd]. intros H. injection H as <-. auto. }
  destruct batch_results as [|b bs].
  { cbn [List.combine fst snd]. intros H. injection H as <-. auto. }
  cbn [List.combine].
  destruct (create_transaction_record t _ _); [|discriminate].
  destruct (process_vendor_for_transaction _ _ _ _ _ _) as [[returned c] d].
  destruct returned; discriminate.
Qed.

(** [_process_transactions] returns no row: it returns the empty list when
    there is no transaction or no batch result, leaving the table as it
    was, and raises in every other case. *)
Theorem process_transactions_returns_no_row
    (db_session : list Vendor.t) (transactions : list Dict.t)
    (batch_results : list FastBatchResult.t) (enrichment : Enriched.t)
    (results : list ResultRow) :
  fst (_process_transactions create_transaction_record db_session
         transactions batch_results enrichment) = Done results ->
  results = [] /\
  (transactions = [] \/ batch_results = []) /\
  snd (_process_transactions (ResultRow := ResultRow) create_transaction_record db_session
         transactions batch_results enrichment) = db_session.
Proof. apply process_transactions_done. Qed.

Lemma check_rows_spec duplicates excluded_indices : forall rows i to_process info,
  (forall t, In t rows -> has_keys t) ->
  exists to_process' info',
    check_rows i rows duplicates excluded_indices to_process info
    = Done ((to_process ++ to_process')%list, (info ++ info')%list) /\
    (forall k t, nth_error rows k = Some t ->
       flagged duplicates excluded_indices (i + k) t = true ->
       In (i + k)%nat (List.map DuplicateInfo.index info')) /\
    (forall entry, In entry info' ->
       exists k t, DuplicateInfo.index entry = (i + k)%nat /\
         nth_error rows k = Some t /\
         flagged duplicates excluded_indices (i + k) t = true) /\
    (info' = [] -> to_process' = rows).
Proof.
  induction rows as [|trans rest IH]; intros i tp info Hkeys.
  - exists [], []. cbn [check_rows]. rewrite !app_nil_r.
    split; [reflexivity|]. split; [intros [|k] t H; discriminate|].
    split; [intros e []|reflexivity].
  - cbn [check_rows]. fold (flagged duplicates excluded_indices i trans).
    assert (Hrest : forall t, In t rest -> has_keys t)
      by (intros t Ht; apply Hkeys; right; exact Ht).
    destruct (flagged duplicates excluded_indices i trans) eqn:Hf.
    + pose proof Hf as Hf'. unfold flagged in Hf'.
      apply List.existsb_exists in Hf' as (d & Hd & Hm).
      apply andb_true_iff in Hm as [Hm _].
      destruct (find_first (fun d => _transactions_match (fst (fst d)) trans)
                  duplicates d Hd Hm) as ([[dup existing] score] & Hfind & _ & _).
      rewrite Hfind.
      destruct (Hkeys trans (or_introl eq_refl)) as (Hdate & Hamount & Htext).
      destruct (Dict.date trans) as [date|]; [|congruence].
      destruct (Dict.amount trans) as [amount|]; [|congruence].
      destruct (Dict.text trans) as [text|]; [|congruence].
      set (entry := DuplicateInfo.mk i date amount text (Transaction.id existing)
                      (Transaction.date existing) (Transaction.text existing) (score * 100)).
      destruct (IH (S i) tp (info ++ [entry])%list Hrest)
        as (tp' & info' & Heq & Hin & Hall & Hnone).
      exists tp', (entry :: info'). rewrite Heq, <- app_assoc.
      split; [reflexivity|]. split; [|split].
      * intros [|k] t Hk Hfl.
        -- left. cbn. lia.
        -- right. replace (i + S k)%nat with (S i + k)%nat by lia.
           apply (Hin k t); [exact Hk|]. replace (S i + k)%nat with (i + S k)%nat by lia. exact Hfl.
      * intros e [<-|He].
        -- exists 0%nat, trans. cbn [DuplicateInfo.index entry nth_error].
           rewrite Nat.add_0_r. auto.
        -- destruct (Hall e He) as (k & t & Hi & Hk & Hfl).
           exists (S k), t. replace (i + S k)%nat with (S i + k)%nat by lia. auto.
      * discriminate.
    + destruct (IH (S i) (tp ++ [trans])%list info Hrest)
        as (tp' & info' & Heq & Hin & Hall & Hnone).
      exists (trans :: tp'), info'. rewrite Heq, <- app_assoc.
      split; [reflexivity|]. split; [|split].
      * intros [|k] t Hk Hfl.
        -- cbn in Hk. injection Hk as <-. rewrite Nat.add_0_r in Hfl. congruence.
        -- replace (i + S k)%nat with (S i + k)%nat in * by lia. apply (Hin k t); assumption.
      * intros e He. destruct (Hall e He) as (k & t & Hi & Hk & Hfl).
        exists (S k), t. replace (i + S k)%nat with (S i + k)%nat by lia. auto.
      * intros E. rewrite (Hnone E). reflexivity.
Qed.

(** A reported duplicate blocks the whole file: when the scan reports the
    new transaction at a position that is not excluded, nothing is
    processed, the table is untouched and the position is listed in the
    duplicates handed back. *)
Theorem reported_duplicate_blocks_processing
    (vendors : list Vendor.t) (stored : list Transaction.t) (now : datetime)
    (all_transactions : list Dict.t) (excluded_indices : option (list nat))
    (batch_results : list FastBatchResult.t) (enrichment : Enriched.t)
    (duplicates : list (Dict.t * Transaction.t * Q))
    (i : nat) (new_trans : Dict.t) (existing : Transaction.t) (s : Q) :
  find_duplicate_transactions all_transactions stored now 7 = Ok duplicates ->
  (forall t, In t all_transactions -> has_keys t) ->
  In (new_trans, existing, s) duplicates ->
  nth_error all_transactions i = Some new_trans ->
  ~ In i (get_or excluded_indices []) ->
  exists duplicate_info,
    process_csv_with_duplicate_check (ResultRow := ResultRow) create_transaction_record
      vendors stored now all_transactions excluded_indices batch_results enrichment
    = (Done ([], duplicate_info), vendors) /\
    In i (List.map DuplicateInfo.index duplicate_info).
Proof.
  intros Hscan Hkeys Hin Hnth Hex.
  unfold process_csv_with_duplicate_check. rewrite Hscan. cbv zeta.
  destruct (check_rows_spec duplicates (get_or excluded_indices []) all_transactions 0 [] [] Hkeys)
    as (tp' & info' & Heq & Hflag & _ & _).
  rewrite Heq. cbn [app].
  assert (Hi : In i (List.map DuplicateInfo.index info')).
  { apply (Hflag i new_trans Hnth). change (0 + i)%nat with i. unfold flagged.
    apply List.existsb_exists. exists (new_trans, existing, s). split; [exact Hin|].
    cbn [fst]. apply andb_true_iff. split.
    - apply transactions_match_reflexive.
      destruct (Hkeys new_trans (nth_error_In _ _ Hnth)) as (Hd & _). exact Hd.
    - apply negb_true_iff. destruct (List.existsb (Nat.eqb i) (get_or excluded_indices [])) eqn:E;
        [|reflexivity].
      apply List.existsb_exists in E as (j & Hj & Hij). apply Nat.eqb_eq in Hij. subst j.
      contradiction. }
  destruct info' as [|entry info']; [contradiction|].
  exists (entry :: info'). split; [reflexivity | exact Hi].
Qed.

(** The call never hands back processed rows: whenever it returns, the
    list of results is empty. *)
Theorem csv_check_returns_no_row
    (vendors vendors' : list Vendor.t) (stored : list Transaction.t) (now : datetime)
    (all_transactions : list Dict.t) (excluded_indices : option (list nat))
    (batch_results : list FastBatchResult.t) (enrichment : Enriched.t)
    (results : list ResultRow) (duplicate_info : list DuplicateInfo.t) :
  process_csv_with_duplicate_check create_transaction_record
    vendors stored now all_transactions excluded_indices batch_results enrichment
  = (Done (results, duplicate_info), vendors') ->
  results = [] /\ vendors' = vendors.
Proof.
  unfold process_csv_with_duplicate_check.
  destruct (find_duplicate_transactions _ _ _ _) as [duplicates|]; [|discriminate].
  cbv zeta.
  destruct (check_rows _ _ _ _ _ _) as [[tp info]|]; [|discriminate].
  destruct info as [|entry info].
  - pose proof (process_transactions_done vendors tp batch_results enrichment) as Hp.
    destruct (_process_transactions create_transaction_record vendors tp batch_results enrichment)
      as [[rows|e] v]; [|discriminate].
    intros H. injection H as <- <- <-.
    destruct (Hp rows eq_refl) as (-> & _ & Hv). cbn [snd] in Hv. auto.
  - intros H. injection H as <- _ <-. auto.
Qed.

End CsvCheck.

Lemma process_transactions_returns_no_row_witness :
  @nil unit = [] /\
  ([statement_line (day 10) (-1234.56)] = [] \/ @nil FastBatchResult.t = []) /\
  snd (_process_transactions (DL := Instances.difflib) (ResultRow := unit) record_built
         [vendor_stripe] [statement_line (day 10) (-1234.56)] [] enrichment_answer)
  = [vendor_stripe].
Proof.
  apply (process_transactions_returns_no_row (DL := Instances.difflib) (ResultRow := unit)
           record_built [vendor_stripe] [statement_line (day 10) (-1234.56)] []
           enrichment_answer []).
  reflexivity.
Defined.

(** One transaction and one batch result: the vendor is created, then the
    unpacking raises; a vendor that is already stored raises earlier. *)
Example process_transactions_raises :
  _process_transactions (DL := Instances.difflib) (ResultRow := unit) record_built
    [] [statement_line (day 10) (-1234.56)] [batch_answer] enrichment_answer
  = (Failed (ValueError "too many values to unpack (expected 2)"),
     [Vendor.mk 1 "Stripe" (Some "Stripe Payments") (Some "stripe.com")])
  /\
  _process_transactions (DL := Instances.difflib) (ResultRow := unit) record_built
    [vendor_stripe] [statement_line (day 10) (-1234.56)] [batch_answer] enrichment_answer
  = (Failed (AttributeError "confidence_calc"), [vendor_stripe]).
Proof. vm_compute. split; reflexivity. Qed.

Lemma reported_duplicate_blocks_processing_witness :
  exists duplicate_info,
    process_csv_with_duplicate_check (DL := Instances.difflib) (ResultRow := unit) record_built
      [vendor_stripe] [stored_yesterday; stored_today] (day 12)
      [statement_line (day 3) (-99); statement_line (day 10) (-1234.56)] None
      [batch_answer; batch_answer] enrichment_answer
    = (Done ([], duplicate_info), [vendor_stripe]) /\
    In 1%nat (List.map DuplicateInfo.index duplicate_info).
Proof.
  eapply (reported_duplicate_blocks_processing (DL := Instances.difflib) (ResultRow := unit)
            record_built [vendor_stripe] [stored_yesterday; stored_today] (day 12)
            [statement_line (day 3) (-99); statement_line (day 10) (-1234.56)] None
            [batch_answer; batch_answer] enrichment_answer
            _ 1 (statement_line (day 10) (-1234.56)) stored_yesterday).
  - vm_compute. reflexivity.
  - intros t [<-|[<-|[]]]; repeat split; discriminate.
  - left. reflexivity.
  - reflexivity.
  - intros [].
Defined.

Lemma csv_check_returns_no_row_witness :
  @nil unit = [] /\ [vendor_stripe] = [vendor_stripe].
Proof.
  eapply (csv_check_returns_no_row (DL := Instances.difflib) (ResultRow := unit) record_built
            [vendor_stripe] [vendor_stripe] [stored_yesterday; stored_today] (day 12)
            [statement_line (day 3) (-99); statement_line (day 10) (-1234.56)] None
            [batch_answer; batch_answer] enrichment_answer).
  vm_compute. reflexivity.
Defined.

(** ** The date window of the duplicate scan *)

Lemma timedelta_days_window (new_date existing_date : datetime) :
  (Z.abs (timedelta_days new_date existing_date) <= 1)%Z <->
  (- microseconds_per_day <= new_date - existing_date < 2 * microseconds_per_day)%Z.
Proof.
  unfold timedelta_days.
  assert (Hd : (0 < microseconds_per_day)%Z) by reflexivity.
  set (D := microseconds_per_day) in *. set (x := (new_date - existing_date)%Z).
  pose proof (Z.div_mod x D ltac:(lia)) as Hdm.
  pose proof (Z.mod_pos_bound x D Hd) as Hm.
  split; intros H.
  - assert (-1 <= x / D <= 1)%Z by lia. nia.
  - assert (-1 <= x / D)%Z by (apply Z.div_le_lower_bound; lia).
    assert (x / D < 2)%Z by (apply Z.div_lt_upper_bound; lia).
    lia.
Qed.

(** Every reported pair is made with a row of the table dated inside the
    look-back period, and the new transaction is dated from one day before
    that row up to just under two days after it: the day difference is
    rounded down, so the window is not symmetric. *)
Theorem reported_pairs_in_window `{DL : Difflib}
    (new_transactions : list Dict.t) (db_session : list Transaction.t)
    (now : datetime) (days_lookback : Z)
    (dups : list (Dict.t * Transaction.t * Q))
    (new_trans : Dict.t) (existing : Transaction.t) (s : Q) :
  find_duplicate_transactions new_transactions db_session now days_lookback = Ok dups ->
  In (new_trans, existing, s) dups ->
  exists new_date existing_date,
    Dict.date new_trans = Some new_date /\
    Transaction.date existing = Some existing_date /\
    In new_trans new_transactions /\ In existing db_session /\
    (now - days_lookback * microseconds_per_day <= existing_date)%Z /\
    (- microseconds_per_day <= new_date - existing_date < 2 * microseconds_per_day)%Z.
Proof.
  intros H Hin.
  pose proof H as H'. unfold find_duplicate_transactions in H'.
  apply scan_new_contributions in H' as (contribs & -> & HF).
  cbn [app] in Hin. apply in_concat in Hin as (c & Hc & Hdc).
  assert (Hpair : In new_trans new_transactions /\
                  first_passing new_trans
                    (query_since db_session (now - days_lookback * microseconds_per_day)%Z)
                    existing).
  { clear H. revert Hc Hdc. induction HF as [|n c' news contribs' Hn HF IH]; intros Hc Hdc.
    - contradiction.
    - destruct Hc as [<-|Hc].
      + destruct Hn as (_ & Hall & _).
        destruct (Hall _ Hdc) as (e & s' & E & _ & Hfp). injection E as <- <- <-.
        split; [left; reflexivity | exact Hfp].
      + destruct (IH Hc Hdc) as [Hn' Hfp]. split; [right; exact Hn' | exact Hfp]. }
  destruct Hpair as [Hnew (before & after & Hrows & _ & Hpass)].
  destruct Hpass as (nd & ed & a & b & t & Hnd & Hed & Hdays & _).
  assert (Hq : In existing
                 (query_since db_session (now - days_lookback * microseconds_per_day)%Z))
    by (rewrite Hrows; apply in_or_app; right; left; reflexivity).
  unfold query_since in Hq. apply filter_In in Hq as [Hdb Hcut].
  rewrite Hed in Hcut. apply Z.leb_le in Hcut.
  exists nd, ed. repeat split; try assumption.
  - apply timedelta_days_window in Hdays. lia.
  - apply timedelta_days_window in Hdays. lia.
Qed.

Lemma reported_pairs_in_window_witness :
  exists new_date existing_date,
    Dict.date (late_statement_line) = Some new_date /\
    Transaction.date stored_yesterday = Some existing_date /\
    In (late_statement_line)
       [late_statement_line] /\
    In stored_yesterday [stored_yesterday] /\
    (day 12 - 7 * microseconds_per_day <= existing_date)%Z /\
    (- microseconds_per_day <= new_date - existing_date < 2 * microseconds_per_day)%Z.
Proof.
  eapply (reported_pairs_in_window (DL := Instances.difflib)
            [late_statement_line] [stored_yesterday] (day 12) 7
            _ (late_statement_line) stored_yesterday).
  - vm_compute. reflexivity.
  - left. reflexivity.
Defined.

(** ** Category confidence *)

(** [calculate_category_confidence] returns a value between 0.1 and 1,
    whatever the transaction, the category, the model's confidence and the
    libraries' answers. *)
Theorem category_confidence_range `{ML : MathLib} `{L2 : Log2Lib} `{DL : Difflib}
    (transaction : Dict.t) (category : string) (llm_confidence : option Q) :
  0.1 <= calculate_category_confidence transaction category llm_confidence <= 1.
Proof.
  unfold calculate_category_confidence.
  match goal with |- _ <= py_max _ (py_min ?x _) <= _ => generalize x end.
  intro x.
  pose proof (py_max_spec 0.1 (py_min x 1)) as (A & B & [C | C]);
    pose proof (py_min_spec x 1) as (D & E & _).
  - rewrite C. lra.
  - rewrite C in *. lra.
Qed.

Lemma analyze_category_patterns_words `{ML : MathLib}
    (text category : string) (transaction : Dict.t) :
  String.eqb category "vendor_payment" = false ->
  String.eqb category "salary" = false ->
  String.eqb category "fees" = false ->
  _analyze_category_patterns text category transaction
  = _analyze_category_patterns text category Dict.empty.
Proof.
  intros A B C. unfold _analyze_category_patterns.
  rewrite A, B, C.
  destruct (Qgtb (Qabs (get_or (Dict.amount transaction) 0)) 0);
    destruct (Qgtb (Qabs (get_or (Dict.amount Dict.empty) 0)) 0); reflexivity.
Qed.

Lemma analyze_category_patterns_no_amount `{ML : MathLib} (text category : string) :
  0 <= _analyze_category_patterns text category Dict.empty <= 0.5.
Proof.
  unfold _analyze_category_patterns.
  change (Qgtb (Qabs (get_or (Dict.amount Dict.empty) 0)) 0) with false.
  cbv iota.
  set (words := PyStr.split text).
  match goal with |- context [List.length (List.filter ?f words)] =>
    set (matches := List.length (List.filter f words)) end.
  destruct (0 <? List.length words)%nat eqn:W.
  - apply Nat.ltb_lt in W.
    assert (0 <= Qnat matches / Qnat (List.length words)) as P
      by (apply Qnat_div_nonneg, Qnat_pos; exact W).
    set (r := Qnat matches / Qnat (List.length words)) in *. clearbody r.
    assert (0 <= py_min r 0.5 <= 0.5) as Hp
      by (pose proof (py_min_spec r 0.5) as (A & B & [C | C]); rewrite C in *; lra).
    set (p := py_min r 0.5) in *. clearbody p.
    pose proof (py_min_spec (0 + p) 1) as (D & E & [F | F]); rewrite F in *; lra.
  - pose proof (py_min_spec 0 1) as (D & E & [F | F]); rewrite F in *; lra.
Qed.

(** For each category offered to the model other than [vendor_payment],
    the pattern score takes no account of the amount (the amount rules are
    written for [salary] and [fees], names that are not offered) and is
    between 0 and 0.5. *)
Theorem offered_category_pattern_score `{ML : MathLib}
    (text category : string) (transaction : Dict.t) :
  In category CATEGORIES ->
  category <> "vendor_payment" ->
  _analyze_category_patterns text category transaction
  = _analyze_category_patterns text category Dict.empty
  /\ 0 <= _analyze_category_patterns text category transaction <= 0.5.
Proof.
  intros Hin Hne.
  assert (String.eqb category "vendor_payment" = false
          /\ String.eqb category "salary" = false
          /\ String.eqb category "fees" = false) as (A & B & C).
  { unfold CATEGORIES in Hin. cbn [In] in Hin.
    repeat match type of Hin with
           | _ \/ _ => destruct Hin as [Hin | Hin]
           end;
      try (subst category; try (exfalso; apply Hne; reflexivity);
           repeat split; reflexivity).
    destruct Hin. }
  rewrite (analyze_category_patterns_words text category transaction A B C).
  split; [reflexivity | apply analyze_category_patterns_no_amount].
Qed.

Lemma offered_category_pattern_score_witness :
  _analyze_category_patterns (ML := Instances.math)
    "salary payment march" "salary_payment" (card_payment (day 3) 25000)
  = _analyze_category_patterns (ML := Instances.math)
      "salary payment march" "salary_payment" Dict.empty
  /\ 0 <= _analyze_category_patterns (ML := Instances.math)
            "salary payment march" "salary_payment" (card_payment (day 3) 25000) <= 0.5.
Proof.
  apply (offered_category_pattern_score (ML := Instances.math)).
  - right. left. reflexivity.
  - discriminate.
Defined.

Lemma clamp_monotone lo hi x y : x <= y -> py_max lo (py_min x hi) <= py_max lo (py_min y hi).
Proof.
  intro H.
  pose proof (py_min_spec x hi) as (A & B & [C | C]);
    pose proof (py_min_spec y hi) as (D & E & [F | F]);
    pose proof (py_max_spec lo (py_min x hi)) as (G & I & [J | J]);
    pose proof (py_max_spec lo (py_min y hi)) as (K & L & [M | M]);
    rewrite J; rewrite ?C in *; rewrite ?F in *; lra.
Qed.

(** For every category offered to the model, the fallback confidence
    with the category is at most the fallback confidence without it: the
    bonus is written for [transfer], [salary] and [fees], none of which is
    offered, and [vendor_payment] only lowers the value. *)
Theorem offered_category_no_bonus `{ML : MathLib}
    (transaction : Dict.t) (category : string) :
  In category CATEGORIES ->
  calculate_llm_fallback_confidence transaction (Some category)
  <= calculate_llm_fallback_confidence transaction None.
Proof.
  intro Hin. unfold calculate_llm_fallback_confidence.
  set (q := calculate_transaction_quality_score transaction). clearbody q.
  cbv zeta.
  unfold CATEGORIES in Hin. cbn [In] in Hin.
  repeat match type of Hin with
         | _ \/ _ => destruct Hin as [Hin | Hin]
         end;
    try (subst category; cbn [truthy_opt PyStr.truthy get_or];
         apply clamp_monotone;
         repeat match goal with
                | |- context [List.existsb ?f ?l] =>
                    let v := eval vm_compute in (List.existsb f l) in
                    change (List.existsb f l) with v
                | |- context [String.eqb ?a ?b] =>
                    let v := eval vm_compute in (String.eqb a b) in
                    change (String.eqb a b) with v
                end;
         cbv iota; lra).
  destruct Hin.
Qed.

Lemma offered_category_no_bonus_witness :
  calculate_llm_fallback_confidence (ML := Instances.math)
    (card_payment (day 3) 25000) (Some "bank_fee")
  <= calculate_llm_fallback_confidence (ML := Instances.math)
       (card_payment (day 3) 25000) None.
Proof.
  apply (offered_category_no_bonus (ML := Instances.math)).
  do 4 right. left. reflexivity.
Defined.

(** ** Amounts of the statement file *)

Lemma space_differs c d : PyStr.is_space d = true -> PyStr.is_space c = false ->
  Ascii.eqb d c = false.
Proof.
  intros Hd Hc. destruct (Ascii.eqb d c) eqn:E; [| reflexivity].
  apply Ascii.eqb_eq in E. subst d. congruence.
Qed.

Lemma count_char_lstrip c s : PyStr.is_space c = false ->
  count_char c (PyStr.lstrip s) = count_char c s.
Proof.
  intro Hc. induction s as [|d s IH]; [reflexivity |].
  cbn [PyStr.lstrip]. destruct (PyStr.is_space d) eqn:D; [| reflexivity].
  cbn [count_char]. rewrite (space_differs c d D Hc). exact IH.
Qed.

Lemma count_char_rstrip c s : PyStr.is_space c = false ->
  count_char c (PyStr.rstrip s) = count_char c s.
Proof.
  intro Hc. induction s as [|d s IH]; [reflexivity |].
  cbn [PyStr.rstrip count_char]. rewrite <- IH.
  destruct (PyStr.rstrip s) as [|e r]; [| reflexivity].
  destruct (PyStr.is_space d) eqn:D; [| reflexivity].
  rewrite (space_differs c d D Hc). reflexivity.
Qed.

Lemma count_char_strip c s : PyStr.is_space c = false ->
  count_char c (PyStr.strip s) = count_char c s.
Proof.
  intro Hc. unfold PyStr.strip.
  rewrite (count_char_rstrip c _ Hc). apply count_char_lstrip, Hc.
Qed.

Lemma split_on_aux_length sep : forall s cur,
  List.length (PyStr.split_on_aux sep cur s) = S (count_char sep s).
Proof.
  induction s as [|d s IH]; intro cur; [reflexivity |].
  cbn [PyStr.split_on_aux count_char].
  destruct (Ascii.eqb d sep); cbn [List.length]; rewrite IH; reflexivity.
Qed.

Lemma split_on_length sep s :
  List.length (PyStr.split_on sep s) = S (count_char sep s).
Proof. apply split_on_aux_length. Qed.

Lemma contains_char c : forall s,
  PyStr.contains (String c "") s = negb (count_char c s =? 0)%nat.
Proof.
  induction s as [|d s IH]; [reflexivity |].
  cbn [PyStr.contains PyStr.startswith count_char].
  rewrite IH, (Ascii.eqb_sym c d).
  destruct (Ascii.eqb d c); cbn [andb orb Nat.add]; [| reflexivity].
  destruct s; reflexivity.
Qed.

(** [parse_amount] answers 0.0 for a blank string, for [nan], [null]
    and [none] in any case, and for a string with two commas or more,
    whatever [float] would make of it. *)
Theorem parse_amount_unreadable `{FP : FloatParser} (amount_str : string) :
  PyStr.strip amount_str = ""
  \/ In (PyStr.lower (PyStr.strip amount_str)) ["nan"; "null"; "none"]
  \/ (2 <= count_char "," amount_str)%nat ->
  parse_amount amount_str = Finite 0.
Proof.
  intro H. unfold parse_amount.
  destruct (PyStr.truthy amount_str); [cbn [negb] | reflexivity].
  destruct H as [H | [H | H]].
  - rewrite H. reflexivity.
  - assert (List.existsb (String.eqb (PyStr.lower (PyStr.strip amount_str)))
              ["nan"; "null"; "none"] = true) as E.
    { apply List.existsb_exists. eexists. split; [exact H |]. apply String.eqb_refl. }
    rewrite E, orb_true_r. reflexivity.
  - destruct (negb (PyStr.truthy (PyStr.strip amount_str))
              || List.existsb (String.eqb (PyStr.lower (PyStr.strip amount_str)))
                   ["nan"; "null"; "none"]); [reflexivity |].
    assert (count_char "," (PyStr.strip amount_str) = count_char "," amount_str) as C
      by (apply count_char_strip; reflexivity).
    rewrite contains_char, C.
    destruct (count_char "," amount_str =? 0)%nat eqn:Z.
    + apply Nat.eqb_eq in Z. lia.
    + cbn [negb].
      pose proof (split_on_length "," (PyStr.strip amount_str)) as L.
      rewrite C in L.
      destruct (PyStr.split_on "," (PyStr.strip amount_str)) as [|a [|b [|c rest]]];
        cbn [List.length] in L; try reflexivity; lia.
Qed.

Lemma parse_amount_unreadable_witness :
  parse_amount (FP := decimal_parser) "1,234,56" = Finite 0.
Proof.
  apply (parse_amount_unreadable (FP := decimal_parser)).
  right. right. vm_compute. lia.
Defined.

Lemma all_chars_weaken (p q : ascii -> bool) :
  (forall c, p c = true -> q c = true) ->
  forall s, all_chars p s = true -> all_chars q s = true.
Proof.
  intros Hpq. induction s as [|c s IH]; [reflexivity |].
  cbn [all_chars]. intro H. apply andb_true_iff in H as [A B].
  rewrite (Hpq c A), (IH B). reflexivity.
Qed.

Lemma digit_or_point_facts c : digit_or_point c = true ->
  PyStr.is_space c = false /\ Ascii.eqb c "," = false.
Proof.
  destruct c as [[] [] [] [] [] [] [] []]; vm_compute; intro H;
    try discriminate; split; reflexivity.
Qed.

Lemma rstrip_no_space : forall s,
  all_chars (fun c => negb (PyStr.is_space c)) s = true -> PyStr.rstrip s = s.
Proof.
  induction s as [|c s IH]; [reflexivity |].
  cbn [all_chars PyStr.rstrip]. intro H. apply andb_true_iff in H as [A B].
  rewrite (IH B). destruct s; [| reflexivity].
  apply negb_true_iff in A. rewrite A. reflexivity.
Qed.

Lemma strip_no_space s :
  all_chars (fun c => negb (PyStr.is_space c)) s = true -> PyStr.strip s = s.
Proof.
  intro H. unfold PyStr.strip.
  assert (PyStr.lstrip s = s) as L.
  { destruct s as [|c s]; [reflexivity |].
    cbn [all_chars] in H. apply andb_true_iff in H as [A _].
    apply negb_true_iff in A. cbn [PyStr.lstrip]. rewrite A. reflexivity. }
  rewrite L. apply rstrip_no_space, H.
Qed.

Lemma count_char_absent c : forall s,
  all_chars (fun d => negb (Ascii.eqb d c)) s = true -> count_char c s = 0%nat.
Proof.
  induction s as [|d s IH]; [reflexivity |].
  cbn [all_chars count_char]. intro H. apply andb_true_iff in H as [A B].
  apply negb_true_iff in A. rewrite A, (IH B). reflexivity.
Qed.

Lemma remove_char_idempotent c : forall s,
  remove_char c (remove_char c s) = remove_char c s.
Proof.
  induction s as [|d s IH]; [reflexivity |].
  cbn [remove_char]. destruct (Ascii.eqb d c) eqn:E; [exact IH |].
  cbn [remove_char]. rewrite E, IH. reflexivity.
Qed.

Lemma remove_point_digits : forall s,
  all_chars digit_or_point s = true ->
  all_chars digit_or_point (remove_char "." s) = true.
Proof.
  induction s as [|d s IH]; [reflexivity |].
  cbn [all_chars remove_char]. intro H. apply andb_true_iff in H as [A B].
  destruct (Ascii.eqb d "."); [exact (IH B) |].
  cbn [all_chars]. rewrite A, (IH B). reflexivity.
Qed.

Lemma digit_head_facts c rest : PyStr.is_digit c = true ->
  List.existsb (String.eqb (PyStr.lower (String c rest))) ["nan"; "null"; "none"] = false
  /\ Ascii.eqb c "." = false /\ digit_or_point c = true.
Proof.
  destruct c as [[] [] [] [] [] [] [] []]; vm_compute; intro H;
    try discriminate; repeat split; reflexivity.
Qed.

(** An amount that starts with a digit and holds digits and points only is
    handed to [float] with its points removed. *)
Lemma parse_amount_plain `{FP : FloatParser} (c : ascii) (rest : string) :
  PyStr.is_digit c = true ->
  all_chars digit_or_point rest = true ->
  parse_amount (String c rest)
  = match float_of_str (remove_char "." (String c rest)) with
    | Some value => value
    | None => Finite 0
    end.
Proof.
  intros Hc Hrest.
  destruct (digit_head_facts c rest Hc) as (N & P & D).
  assert (all_chars digit_or_point (String c rest) = true) as Hall
    by (cbn [all_chars]; rewrite D, Hrest; reflexivity).
  unfold parse_amount. cbn [PyStr.truthy negb].
  rewrite (strip_no_space (String c rest)).
  2:{ apply (all_chars_weaken digit_or_point); [| exact Hall].
      intros d Hd. destruct (digit_or_point_facts d Hd) as [S _].
      rewrite S. reflexivity. }
  rewrite N. cbn [PyStr.truthy negb orb].
  rewrite contains_char, (count_char_absent "," (String c rest)).
  2:{ apply (all_chars_weaken digit_or_point); [| exact Hall].
      intros d Hd. destruct (digit_or_point_facts d Hd) as [_ S].
      rewrite S. reflexivity. }
  reflexivity.
Qed.

(** In an amount without a comma every point is dropped before the
    number is read: an amount that starts with a digit and holds digits and
    points only is parsed as the same string without its points, so that
    12.50 is read as 1250. *)
Theorem parse_amount_ignores_points `{FP : FloatParser} (c : ascii) (rest : string) :
  PyStr.is_digit c = true ->
  all_chars digit_or_point rest = true ->
  parse_amount (String c rest) = parse_amount (String c (remove_char "." rest)).
Proof.
  intros Hc Hrest.
  destruct (digit_head_facts c rest Hc) as (_ & P & _).
  rewrite (parse_amount_plain c rest Hc Hrest).
  rewrite (parse_amount_plain c (remove_char "." rest) Hc (remove_point_digits rest Hrest)).
  cbn [remove_char]. rewrite P.
  rewrite remove_char_idempotent. reflexivity.
Qed.

Lemma parse_amount_ignores_points_witness :
  parse_amount (FP := decimal_parser) "12.50" = parse_amount (FP := decimal_parser) "1250".
Proof.
  apply (parse_amount_ignores_points (FP := decimal_parser) "1" "2.50"); reflexivity.
Defined.

Example parse_amount_examples :
  parse_amount (FP := decimal_parser) "1.234,56" = Finite (inject_Z 1234 + inject_Z 56 / inject_Z 100)
  /\ parse_amount (FP := decimal_parser) " 1000 " = Finite (inject_Z 1000)
  /\ parse_amount (FP := decimal_parser) "12.50" = Finite (inject_Z 1250)
  /\ parse_amount (FP := decimal_parser) "NaN" = Finite 0.
Proof. vm_compute. repeat split; reflexivity. Qed.
